(** * Books and reviews over HTTP: the CRUD handlers of [apis/views.py]

    A shallow embedding of the Django application [apis]:
    - [apis/models.py]: the [Book] and [Review] models, with the cascading
      foreign key of [Review.book] and the validators of [Review.rating];
    - [apis/serializers.py]: [BookSerializer] and [ReviewSerializer], both
      [ModelSerializer]s over all the fields of their model;
    - [apis/views.py]: the function-based handlers [fbv_list] and [fbv_pk] and
      the class-based handlers [cbv_list] and [cbv_pk].  (The mixin, generic
      and viewset handlers only configure classes of the framework and are not
      embedded.)

    The handlers run in a state-and-exception monad over the [Store] (the two
    database tables).  The parts of Django and of Django REST framework that
    the handlers call (field validation, [Serializer.data] and
    [Serializer.errors], the model manager, the exception handler of
    [APIView]) are embedded next to the code that calls them, following the
    framework's documented behaviour.

    Conventions of the embedding:
    - a Python [str] is a Rocq [string]; each [ascii] stands for one character,
      so the characters are those with a code point below 256;
    - a parsed JSON body is a [json] value; JSON numbers are integers (floats
      are left out);
    - an error message is an [ErrorDetail] code, rendered by [message]. *)

From stdpp Require Import gmap strings list fin_maps pretty.
From Stdlib Require Import ZArith Ascii String Lia.

Set Warnings "-register-all".
Open Scope Z_scope.

(** ** JSON values: [request.data] and the [data] of a [Response] *)

Inductive json : Type :=
  | JNull
  | JBool (b : bool)
  | JInt (z : Z)
  | JStr (s : string)
  | JArr (l : list json)
  | JObj (m : gmap string json).

(** [type(data).__name__], as the framework's messages print it. *)
Definition type_name (j : json) : string :=
  match j with
  | JNull => "NoneType"
  | JBool _ => "bool"
  | JInt _ => "int"
  | JStr _ => "str"
  | JArr _ => "list"
  | JObj _ => "dict"
  end.

(** ** Python strings *)

Module Py.

(** [str.isspace] on the characters below 256. *)
Definition isspace (c : ascii) : bool :=
  let n := N_of_ascii c in
  ((9 <=? n) && (n <=? 13) || (28 <=? n) && (n <=? 32)
   || (n =? 133) || (n =? 160))%N.

Fixpoint lstrip (s : string) : string :=
  match s with
  | String c s' => if isspace c then lstrip s' else s
  | EmptyString => EmptyString
  end.

Definition rstrip (s : string) : string :=
  String.rev (lstrip (String.rev s)).

(** [s.strip()] *)
Definition strip (s : string) : string := rstrip (lstrip s).

(** [len(s)] *)
Definition len (s : string) : Z := Z.of_nat (String.length s).

(** [c in s] *)
Fixpoint contains (c : ascii) (s : string) : bool :=
  match s with
  | String c' s' => if Ascii.eqb c c' then true else contains c s'
  | EmptyString => false
  end.

(** [s.split(c)] *)
Fixpoint split (c : ascii) (s : string) : list string :=
  match s with
  | EmptyString => [EmptyString]
  | String c' s' =>
      if Ascii.eqb c c' then EmptyString :: split c s'
      else match split c s' with
           | w :: ws => String c' w :: ws
           | [] => [String c' EmptyString]
           end
  end.

(** The value of a decimal digit. *)
Definition digit_val (c : ascii) : option Z :=
  let n := Z.of_N (N_of_ascii c) in
  if (48 <=? n) && (n <=? 57) then Some (n - 48) else None.

(** The character of a decimal digit. *)
Definition digit_char (n : Z) : ascii := ascii_of_N (Z.to_N (48 + n)).

(** [int(s)] for a non-empty string of decimal digits. *)
Fixpoint digits_go (acc : Z) (s : string) : option Z :=
  match s with
  | EmptyString => Some acc
  | String c s' =>
      match digit_val c with
      | Some d => digits_go (10 * acc + d) s'
      | None => None
      end
  end.

Definition digits (s : string) : option Z :=
  match s with
  | EmptyString => None
  | _ => digits_go 0 s
  end.

(** [int(s)] for an optional sign followed by decimal digits.  Python's
    [int] also accepts surrounding whitespace and underscores between
    digits; those spellings are left out. *)
Definition int_of_str (s : string) : option Z :=
  match s with
  | String "-" s' => Z.opp <$> digits s'
  | String "+" s' => digits s'
  | _ => digits s
  end.

(** [str(z)] *)
Definition str_of_int (z : Z) : string := pretty z.

(** The double quote, for the messages that quote a value. *)
Definition dquote : string := String (ascii_of_N 34) EmptyString.

End Py.

(** ** Calendar dates: [datetime.date] *)

Record date : Type := Date { year : Z; month : Z; day : Z }.

Module Datetime.

Definition is_leap (y : Z) : bool :=
  (y mod 4 =? 0) && (negb (y mod 100 =? 0) || (y mod 400 =? 0)).

Definition days_in_month (y m : Z) : Z :=
  if m =? 2 then (if is_leap y then 29 else 28)
  else if (m =? 4) || (m =? 6) || (m =? 9) || (m =? 11) then 30
  else 31.

(** [datetime.date(y, m, d)]: [None] stands for its [ValueError]. *)
Definition make_date (y m d : Z) : option date :=
  if (1 <=? y) && (y <=? 9999) && (1 <=? m) && (m <=? 12)
     && (1 <=? d) && (d <=? days_in_month y m)
  then Some (Date y m d) else None.

Definition valid_date (d : date) : Prop :=
  make_date (year d) (month d) (day d) = Some d.

Definition pad2 (n : Z) : string :=
  String (Py.digit_char (n / 10)) (String (Py.digit_char (n mod 10)) EmptyString).

Definition pad4 (n : Z) : string :=
  String (Py.digit_char (n / 1000))
    (String (Py.digit_char (n / 100 mod 10))
       (String (Py.digit_char (n / 10 mod 10))
          (String (Py.digit_char (n mod 10)) EmptyString))).

(** [d.isoformat()]: YYYY-MM-DD. *)
Definition isoformat (d : date) : string :=
  pad4 (year d) +:+ "-" +:+ pad2 (month d) +:+ "-" +:+ pad2 (day d).

(** One or two digits. *)
Definition digits_1_2 (s : string) : option Z :=
  if (String.length s <=? 2)%nat then Py.digits s else None.

(** The day group of [date_re], up to the [$]: Python's [$] also matches
    before a final newline. *)
Definition day_group (s : string) : option Z :=
  match digits_1_2 s with
  | Some d => Some d
  | None =>
      match String.rev s with
      | String "010" r => digits_1_2 (String.rev r)
      | _ => None
      end
  end.

(** [django.utils.dateparse.parse_date] on a string, by its regular
    expression [(\d{4})-(\d{1,2})-(\d{1,2})$] followed by
    [datetime.date(year, month, day)].  [None] stands both for no match and
    for the [ValueError] of an impossible date; the caller treats them
    alike.  The further spellings that [date.fromisoformat] accepts on recent
    Python versions are left out. *)
Definition parse_date (s : string) : option date :=
  match Py.split "-" s with
  | [ys; ms; ds] =>
      if (String.length ys =? 4)%nat then
        y ← Py.digits ys; m ← digits_1_2 ms; d ← day_group ds;
        make_date y m d
      else None
  | _ => None
  end.

End Datetime.

(** ** [apis/models.py] *)

(** [class Book(models.Model)]: the primary key [id] is the key of the row in
    the table, the record holds the declared fields. *)
Record Book : Type := {
  title : string;             (* CharField(max_length=255) *)
  author : string;            (* CharField(max_length=255) *)
  published_date : date       (* DateField() *)
}.

(** The validators of [django.core.validators] that the models use. *)
Inductive validator : Type :=
  | MinValueValidator (limit_value : Z)
  | MaxValueValidator (limit_value : Z).

(** [class Review(models.Model)] *)
Record Review : Type := {
  book : Z;                   (* ForeignKey(Book, on_delete=CASCADE): book_id *)
  reviewer : string;          (* CharField(max_length=100) *)
  text : string;              (* TextField() *)
  rating : Z;                 (* IntegerField(validators=[...]) *)
  created_at : string         (* DateTimeField(auto_now_add=True), in ISO 8601 text *)
}.

Definition Book_title_max_length : Z := 255.
Definition Book_author_max_length : Z := 255.
Definition Review_reviewer_max_length : Z := 100.

(** [validators=[MinValueValidator(1), MaxValueValidator(5)]] *)
Definition Review_rating_validators : list validator :=
  [MinValueValidator 1; MaxValueValidator 5].

(** ** The database *)

(** The two tables, keyed by primary key, and the sequence that numbers new
    [Book] rows. *)
Record Store : Type := {
  Book_objects : gmap Z Book;
  Review_objects : gmap Z Review;
  Book_id_seq : Z
}.

(** The request methods, and the exceptions that the handlers meet. *)
Inductive http_method : Type := GET | POST | PUT | PATCH | DELETE.

Global Instance http_method_eq_dec : EqDecision http_method.
Proof. solve_decision. Defined.

Inductive exn : Type :=
  | DoesNotExist
  | Http404
  | MethodNotAllowed (m : http_method)
  | AssertionError.

Global Instance exn_eq_dec : EqDecision exn.
Proof. solve_decision. Defined.

Inductive outcome (A : Type) : Type :=
  | Return (a : A)
  | Raise (e : exn).
Arguments Return {A} a.
Arguments Raise {A} e.

(** A computation over the database that returns or raises. *)
Definition M (A : Type) : Type := Store → outcome A * Store.

Global Instance M_ret : MRet M := λ A a s, (Return a, s).

Global Instance M_bind : MBind M := λ A B f m s,
  match m s with
  | (Return a, s') => f a s'
  | (Raise e, s') => (Raise e, s')
  end.

Definition raise {A : Type} (e : exn) : M A := λ s, (Raise e, s).

(** [try: x = m  except exc: handler] followed by [orelse x]: only what [m]
    raises is caught, and the handler ends the computation. *)
Definition try_except {A B : Type} (m : M A) (exc : exn) (handler : M B)
    (orelse : A → M B) : M B :=
  λ s, match m s with
       | (Return a, s') => orelse a s'
       | (Raise e, s') =>
           if decide (e = exc) then handler s' else (Raise e, s')
       end.

Definition get_store : M Store := λ s, (Return s, s).
Definition put_store (s : Store) : M unit := λ _, (Return tt, s).

(** *** The model manager and the model instances of Django *)

(** A model instance: the primary key and the fields. *)
Definition Book_instance : Type := Z * Book.

(** [Book.objects.all()], evaluated. *)
Definition Book_objects_all : M (list Book_instance) :=
  s ← get_store; mret (map_to_list (Book_objects s)).

(** [Book.objects.get(pk=pk)] *)
Definition Book_objects_get (pk : Z) : M Book_instance :=
  s ← get_store;
  match Book_objects s !! pk with
  | Some b => mret (pk, b)
  | None => raise DoesNotExist
  end.

(** [Book.objects.create] on the validated fields: the row gets the next number of
    the sequence, a new key in every store that satisfies [ids_below_seq]. *)
Definition Book_objects_create (validated_data : Book) : M Book_instance :=
  s ← get_store;
  let pk := Book_id_seq s + 1 in
  put_store {| Book_objects := <[pk := validated_data]> (Book_objects s);
               Review_objects := Review_objects s;
               Book_id_seq := pk |};;
  mret (pk, validated_data).

(** [instance.save()] of an instance that has a primary key. *)
Definition Book_save (instance : Book_instance) : M unit :=
  s ← get_store;
  put_store {| Book_objects := <[instance.1 := instance.2]> (Book_objects s);
               Review_objects := Review_objects s;
               Book_id_seq := Book_id_seq s |}.

(** [instance.delete()]: the collector first deletes the rows that refer to
    the instance through a foreign key with [on_delete=CASCADE], here the
    reviews of the book, then the row itself. *)
Definition Book_delete (instance : Book_instance) : M unit :=
  s ← get_store;
  put_store {| Book_objects := delete instance.1 (Book_objects s);
               Review_objects :=
                 filter (λ kr, book kr.2 ≠ instance.1) (Review_objects s);
               Book_id_seq := Book_id_seq s |}.

(** ** Field validation of Django REST framework *)

(** The error details that the fields of the two serializers can report, by
    the framework's error code. *)
Inductive ErrorDetail : Type :=
  | required
  | null
  | blank
  | invalid_string
  | max_length (limit : Z)
  | null_characters_not_allowed
  | invalid_date
  | invalid_integer
  | max_string_length
  | max_value (limit : Z)
  | min_value (limit : Z)
  | does_not_exist (pk_value : string)
  | incorrect_type (data_type : string)
  | invalid_data (datatype : string)
  | no_data.

(** The message of an error detail, as the response shows it. *)
Definition message (e : ErrorDetail) : string :=
  match e with
  | required => "This field is required."
  | null => "This field may not be null."
  | blank => "This field may not be blank."
  | invalid_string => "Not a valid string."
  | max_length n =>
      "Ensure this field has no more than " +:+ Py.str_of_int n +:+ " characters."
  | null_characters_not_allowed => "Null characters are not allowed."
  | invalid_date =>
      "Date has wrong format. Use one of these formats instead: YYYY-MM-DD."
  | invalid_integer => "A valid integer is required."
  | max_string_length => "String value too large."
  | max_value n =>
      "Ensure this value is less than or equal to " +:+ Py.str_of_int n +:+ "."
  | min_value n =>
      "Ensure this value is greater than or equal to " +:+ Py.str_of_int n +:+ "."
  | does_not_exist pk =>
      "Invalid pk " +:+ Py.dquote +:+ pk +:+ Py.dquote +:+ " - object does not exist."
  | incorrect_type t => "Incorrect type. Expected pk value, received " +:+ t +:+ "."
  | invalid_data t => "Invalid data. Expected a dictionary, but got " +:+ t +:+ "."
  | no_data => "No data provided"
  end.

(** The result of validating one field: the internal value, or the
    [ValidationError] with its details. *)
Inductive validation (A : Type) : Type :=
  | Valid (value : A)
  | Invalid (detail : list ErrorDetail).
Arguments Valid {A} value.
Arguments Invalid {A} detail.

Global Instance validation_bind : MBind validation := λ A B f v,
  match v with
  | Valid a => f a
  | Invalid d => Invalid d
  end.

(** [Field.validate_empty_values] of a writable field that is required and
    does not allow null.  A serializer field built from a model field is so
    when the model field declares neither [default] nor [blank] nor [null],
    which holds for every field of [Book] and every editable field of
    [Review].  An absent key is [None]. *)
Definition validate_empty_values (data : option json) : validation json :=
  match data with
  | None => Invalid [required]
  | Some JNull => Invalid [null]
  | Some j => Valid j
  end.

(** [Field.run_validators]: every validator runs, the messages add up. *)
Definition run_validators {A : Type}
    (validators : list (A → option ErrorDetail)) (value : A) : validation A :=
  match omap (λ v, v value) validators with
  | [] => Valid value
  | errors => Invalid errors
  end.

(** *** [serializers.CharField] *)

Definition MaxLengthValidator (limit : Z) (value : string) : option ErrorDetail :=
  if limit <? Py.len value then Some (max_length limit) else None.

Definition ProhibitNullCharactersValidator (value : string) : option ErrorDetail :=
  if Py.contains "000" value then Some null_characters_not_allowed else None.

(** The validators that [CharField.__init__] installs.  (The validator of
    surrogate characters never fires on characters below 256.) *)
Definition CharField_validators (max_len : option Z)
    : list (string → option ErrorDetail) :=
  match max_len with
  | Some n => [MaxLengthValidator n; ProhibitNullCharactersValidator]
  | None => [ProhibitNullCharactersValidator]
  end.

(** [CharField.to_internal_value], with [trim_whitespace=True], the default:
    a string or a number is accepted and stripped; a boolean or a composite
    is not a valid string. *)
Definition CharField_to_internal_value (data : json) : validation string :=
  match data with
  | JStr s => Valid (Py.strip s)
  | JInt z => Valid (Py.strip (Py.str_of_int z))
  | _ => Invalid [invalid_string]
  end.

(** The test of [CharField.run_validation] for the blank string:
    [data == '' or str(data).strip() == '']. *)
Definition is_blank (data : option json) : bool :=
  match data with
  | Some (JStr s) => bool_decide (Py.strip s = EmptyString)
  | _ => false
  end.

(** [CharField.run_validation], with [allow_blank=False]. *)
Definition CharField_run_validation (max_len : option Z) (data : option json)
    : validation string :=
  if is_blank data then Invalid [blank]
  else
    data ← validate_empty_values data;
    value ← CharField_to_internal_value data;
    run_validators (CharField_validators max_len) value.

(** *** [serializers.DateField] *)

(** [DateField.to_internal_value] with the input format ISO 8601: what
    [parse_date] rejects, by no match or by an exception, has the wrong
    format. *)
Definition DateField_to_internal_value (data : json) : validation date :=
  match data with
  | JStr s =>
      match Datetime.parse_date s with
      | Some d => Valid d
      | None => Invalid [invalid_date]
      end
  | _ => Invalid [invalid_date]
  end.

Definition DateField_run_validation (data : option json) : validation date :=
  data ← validate_empty_values data;
  DateField_to_internal_value data.

(** [DateField.to_representation] with the output format ISO 8601. *)
Definition DateField_to_representation (d : date) : json :=
  JStr (Datetime.isoformat d).

(** *** [serializers.IntegerField] *)

Definition IntegerField_MAX_STRING_LENGTH : Z := 1000.

(** [IntegerField.to_internal_value]: [int(str(data))].  (The framework also
    reads a string such as 3.0 as an integer; that spelling is left out.) *)
Definition IntegerField_to_internal_value (data : json) : validation Z :=
  match data with
  | JInt z => Valid z
  | JStr s =>
      if IntegerField_MAX_STRING_LENGTH <? Py.len s
      then Invalid [max_string_length]
      else match Py.int_of_str s with
           | Some z => Valid z
           | None => Invalid [invalid_integer]
           end
  | _ => Invalid [invalid_integer]
  end.

(** The limits that [ModelSerializer] takes from the validators of the model
    field: the first [MaxValueValidator] and the first [MinValueValidator]. *)
Definition model_max_value (vs : list validator) : option Z :=
  head (omap (λ v, match v with MaxValueValidator n => Some n | _ => None end) vs).

Definition model_min_value (vs : list validator) : option Z :=
  head (omap (λ v, match v with MinValueValidator n => Some n | _ => None end) vs).

(** The validators that [IntegerField.__init__] installs: the maximum first. *)
Definition IntegerField_validators (vs : list validator)
    : list (Z → option ErrorDetail) :=
  option_list ((λ n value, if n <? value then Some (max_value n) else None)
                 <$> model_max_value vs)
  ++ option_list ((λ n value, if value <? n then Some (min_value n) else None)
                    <$> model_min_value vs).

Definition IntegerField_run_validation (vs : list validator) (data : option json)
    : validation Z :=
  data ← validate_empty_values data;
  value ← IntegerField_to_internal_value data;
  run_validators (IntegerField_validators vs) value.

(** *** [serializers.PrimaryKeyRelatedField] over [Book.objects.all()] *)

(** [PrimaryKeyRelatedField.to_internal_value]: [queryset.get(pk=data)]. *)
Definition PrimaryKeyRelatedField_to_internal_value (s : Store) (data : json)
    : validation Z :=
  match data with
  | JInt pk =>
      if decide (is_Some (Book_objects s !! pk)) then Valid pk
      else Invalid [does_not_exist (Py.str_of_int pk)]
  | JStr str =>
      match Py.int_of_str str with
      | Some pk =>
          if decide (is_Some (Book_objects s !! pk)) then Valid pk
          else Invalid [does_not_exist str]
      | None => Invalid [incorrect_type "str"]
      end
  | _ => Invalid [incorrect_type (type_name data)]
  end.

(** [RelatedField.run_validation]: the empty string counts as null. *)
Definition PrimaryKeyRelatedField_run_validation (s : Store) (data : option json)
    : validation Z :=
  let data := match data with Some (JStr EmptyString) => Some JNull | _ => data end in
  data ← validate_empty_values data;
  PrimaryKeyRelatedField_to_internal_value s data.

(** ** [apis/serializers.py] *)

(** What [ModelSerializer] builds from [class Meta] with [fields = '__all__']:
    the writable fields, their validation and their representation.  The
    primary key [id] is a read-only field, it is represented but never read
    from the input. *)
Class ModelSerializer (Model : Type) : Type := {
  writable_fields : list string;
  fields_initial : gmap string json;
  to_internal_value :
    Store → gmap string json → gmap string (list ErrorDetail) + Model;
  fields_to_representation : Model → gmap string json
}.

(** The entry of a field in the error dictionary. *)
Definition field_errors {A : Type} (field_name : string) (r : validation A)
    (errors : gmap string (list ErrorDetail)) : gmap string (list ErrorDetail) :=
  match r with
  | Invalid detail => <[field_name := detail]> errors
  | Valid _ => errors
  end.

(** [class BookSerializer(serializers.ModelSerializer)], [model = Book]. *)
Definition BookSerializer_to_internal_value (s : Store) (data : gmap string json)
    : gmap string (list ErrorDetail) + Book :=
  let title := CharField_run_validation (Some Book_title_max_length) (data !! "title") in
  let author := CharField_run_validation (Some Book_author_max_length) (data !! "author") in
  let published_date := DateField_run_validation (data !! "published_date") in
  match title, author, published_date with
  | Valid t, Valid a, Valid d =>
      inr {| title := t; author := a; published_date := d |}
  | _, _, _ =>
      inl (field_errors "title" title
             (field_errors "author" author
                (field_errors "published_date" published_date ∅)))
  end.

Global Instance BookSerializer : ModelSerializer Book := {
  writable_fields := ["title"; "author"; "published_date"];
  fields_initial :=
    {[ "title" := JStr ""; "author" := JStr ""; "published_date" := JNull ]};
  to_internal_value := BookSerializer_to_internal_value;
  fields_to_representation b :=
    {[ "title" := JStr (title b); "author" := JStr (author b);
       "published_date" := DateField_to_representation (published_date b) ]}
}.

(** [class ReviewSerializer(serializers.ModelSerializer)], [model = Review].
    [created_at] is read-only ([auto_now_add] makes the model field
    non-editable); a validated review carries no timestamp yet. *)
Definition ReviewSerializer_to_internal_value (s : Store) (data : gmap string json)
    : gmap string (list ErrorDetail) + Review :=
  let book := PrimaryKeyRelatedField_run_validation s (data !! "book") in
  let reviewer :=
    CharField_run_validation (Some Review_reviewer_max_length) (data !! "reviewer") in
  let text := CharField_run_validation None (data !! "text") in
  let rating := IntegerField_run_validation Review_rating_validators (data !! "rating") in
  match book, reviewer, text, rating with
  | Valid b, Valid r, Valid t, Valid n =>
      inr {| book := b; reviewer := r; text := t; rating := n; created_at := "" |}
  | _, _, _, _ =>
      inl (field_errors "book" book
             (field_errors "reviewer" reviewer
                (field_errors "text" text
                   (field_errors "rating" rating ∅))))
  end.

Global Instance ReviewSerializer : ModelSerializer Review := {
  writable_fields := ["book"; "reviewer"; "text"; "rating"];
  fields_initial :=
    {[ "book" := JNull; "reviewer" := JStr ""; "text" := JStr ""; "rating" := JNull ]};
  to_internal_value := ReviewSerializer_to_internal_value;
  fields_to_representation r :=
    {[ "book" := JInt (book r); "reviewer" := JStr (reviewer r);
       "text" := JStr (text r); "rating" := JInt (rating r);
       "created_at" := JStr (created_at r) ]}
}.

(** ** The serializer objects of Django REST framework *)

(** A serializer object: [Serializer(instance, data=...)].  [_errors] is set
    by [is_valid]; [_validated_data] is [None] when unset or empty. *)
Record Serializer (Model : Type) : Type := {
  instance : option (Z * Model);
  initial_data : option json;
  _validated_data : option Model;
  _errors : option (gmap string (list ErrorDetail))
}.
Arguments instance {Model} _.
Arguments initial_data {Model} _.
Arguments _validated_data {Model} _.
Arguments _errors {Model} _.

Definition NON_FIELD_ERRORS_KEY : string := "non_field_errors".

Section serializer.
Context {Model : Type} `{!ModelSerializer Model}.

(** [Serializer(instance, data=data)] *)
Definition new_serializer (instance : option (Z * Model)) (data : option json)
    : Serializer Model :=
  {| instance := instance; initial_data := data;
     _validated_data := None; _errors := None |}.

(** [Serializer.to_representation(instance)] *)
Definition to_representation (instance : Z * Model) : json :=
  JObj (<["id" := JInt instance.1]> (fields_to_representation instance.2)).

(** [Serializer.run_validation(data)], with the wording that
    [Serializer.errors] gives to the null case. *)
Definition run_validation (s : Store) (data : json)
    : gmap string (list ErrorDetail) + Model :=
  match data with
  | JNull => inl {[ NON_FIELD_ERRORS_KEY := [no_data] ]}
  | JObj m => to_internal_value s m
  | _ => inl {[ NON_FIELD_ERRORS_KEY := [invalid_data (type_name data)] ]}
  end.

(** [serializer.is_valid()]: the verdict, and the serializer with
    [_validated_data] and [_errors] set. *)
Definition is_valid (serializer : Serializer Model) : M (bool * Serializer Model) :=
  match initial_data serializer with
  | None => raise AssertionError
  | Some data =>
      s ← get_store;
      match run_validation s data with
      | inr value =>
          mret (true, {| instance := instance serializer;
                         initial_data := initial_data serializer;
                         _validated_data := Some value;
                         _errors := Some ∅ |})
      | inl errors =>
          mret (false, {| instance := instance serializer;
                          initial_data := initial_data serializer;
                          _validated_data := None;
                          _errors := Some errors |})
      end
  end.

(** The JSON form of an error dictionary: field name to list of messages. *)
Definition errors_json (errors : gmap string (list ErrorDetail)) : json :=
  JObj ((λ detail, JArr (JStr ∘ message <$> detail)) <$> errors).

(** [serializer.errors] *)
Definition errors (serializer : Serializer Model) : M json :=
  match _errors serializer with
  | None => raise AssertionError
  | Some errors => mret (errors_json errors)
  end.

(** [Serializer.get_initial()]: with input data, the submitted values of the
    writable fields that are present; without, the initial values of the
    fields. *)
Definition get_initial (serializer : Serializer Model) : json :=
  match initial_data serializer with
  | Some (JObj m) => JObj (filter (λ kv, kv.1 ∈ writable_fields) m)
  | Some _ => JObj ∅
  | None => JObj fields_initial
  end.

Definition has_errors (serializer : Serializer Model) : bool :=
  match _errors serializer with
  | Some errors => negb (bool_decide (errors = ∅))
  | None => false
  end.

(** [serializer.data]: the representation of the instance, else of the
    validated data, when there are no errors; else the initial data. *)
Definition data (serializer : Serializer Model) : M json :=
  match initial_data serializer, _errors serializer with
  | Some _, None => raise AssertionError
  | _, _ =>
      if has_errors serializer then mret (get_initial serializer)
      else
        match instance serializer, _validated_data serializer with
        | Some i, _ => mret (to_representation i)
        | None, Some v => mret (JObj (fields_to_representation v))
        | None, None => mret (get_initial serializer)
        end
  end.

(** [ListSerializer.data] of [Serializer(instances, many=True)]. *)
Definition many_data (instances : list (Z * Model)) : json :=
  JArr (to_representation <$> instances).

End serializer.

(** [ModelSerializer.save()] for [Book]: [update] when the serializer has an
    instance, [create] otherwise.  [update] sets every validated attribute on
    the instance and saves it; the validated data of a [BookSerializer] holds
    all three fields, so all three are set. *)
Definition save (serializer : Serializer Book) : M (Serializer Book) :=
  match _validated_data serializer, has_errors serializer with
  | Some validated_data, false =>
      instance ←
        match instance serializer with
        | Some instance =>
            let instance :=
              (instance.1, {| title := title validated_data;
                              author := author validated_data;
                              published_date := published_date validated_data |}) in
            Book_save instance;; mret instance
        | None => Book_objects_create validated_data
        end;
      mret {| instance := Some instance;
              initial_data := initial_data serializer;
              _validated_data := _validated_data serializer;
              _errors := _errors serializer |}
  | _, _ => raise AssertionError
  end.

(** ** Requests and responses *)

(** A request: its method and its parsed JSON body, [request.data]. *)
Record Request : Type := { method : http_method; request_data : json }.

(** [Response(data, status=status)]; [Response(status=status)] has no data and
    renders an empty body. *)
Record Response : Type := { response_data : option json; status_code : Z }.

Module status.
Definition HTTP_200_OK : Z := 200.
Definition HTTP_201_CREATED : Z := 201.
Definition HTTP_204_NO_CONTENT : Z := 204.
Definition HTTP_400_BAD_REQUEST : Z := 400.
Definition HTTP_404_NOT_FOUND : Z := 404.
Definition HTTP_405_METHOD_NOT_ALLOWED : Z := 405.
Definition HTTP_500_INTERNAL_SERVER_ERROR : Z := 500.
End status.

(** ** [apis/views.py] *)

(** *** 3. Function based views *)

(** [def fbv_list(request)] *)
Definition fbv_list (request : Request) : M Response :=
  match method request with
  | GET =>
      books ← Book_objects_all;
      mret {| response_data := Some (many_data books);
              status_code := status.HTTP_200_OK |}
  | POST =>
      '(valid, serializer) ← is_valid (new_serializer None (Some (request_data request)));
      if valid : bool then
        serializer ← save serializer;
        d ← data serializer;
        mret {| response_data := Some d; status_code := status.HTTP_201_CREATED |}
      else
        d ← data serializer;
        mret {| response_data := Some d; status_code := status.HTTP_400_BAD_REQUEST |}
  | _ => raise AssertionError
  end.

(** [def fbv_pk(request, pk)] *)
Definition fbv_pk (request : Request) (pk : Z) : M Response :=
  try_except (Book_objects_get pk) DoesNotExist
    (mret {| response_data := None; status_code := status.HTTP_404_NOT_FOUND |})
    (λ book,
      match method request with
      | GET =>
          d ← data (new_serializer (Some book) None);
          mret {| response_data := Some d; status_code := status.HTTP_200_OK |}
      | PUT =>
          '(valid, serializer) ←
            is_valid (new_serializer (Some book) (Some (request_data request)));
          if valid : bool then
            serializer ← save serializer;
            d ← data serializer;
            mret {| response_data := Some d; status_code := status.HTTP_200_OK |}
          else
            e ← errors serializer;
            mret {| response_data := Some e; status_code := status.HTTP_400_BAD_REQUEST |}
      | DELETE =>
          Book_delete book;;
          mret {| response_data := None; status_code := status.HTTP_204_NO_CONTENT |}
      | _ => raise AssertionError
      end).

(** *** 4. Class based views *)

Module cbv_list.

(** [def get(self, request)] *)
Definition get (request : Request) : M Response :=
  books ← Book_objects_all;
  mret {| response_data := Some (many_data books);
          status_code := status.HTTP_200_OK |}.

(** [def post(self, request)] *)
Definition post (request : Request) : M Response :=
  '(valid, serializer) ← is_valid (new_serializer None (Some (request_data request)));
  if valid : bool then
    serializer ← save serializer;
    d ← data serializer;
    mret {| response_data := Some d; status_code := status.HTTP_201_CREATED |}
  else
    d ← data serializer;
    mret {| response_data := Some d; status_code := status.HTTP_400_BAD_REQUEST |}.

End cbv_list.

Module cbv_pk.

(** [def get_object(self, pk)] *)
Definition get_object (pk : Z) : M Book_instance :=
  try_except (Book_objects_get pk) DoesNotExist (raise Http404) mret.

(** [def get(self, request, pk)] *)
Definition get (request : Request) (pk : Z) : M Response :=
  book ← get_object pk;
  d ← data (new_serializer (Some book) None);
  mret {| response_data := Some d; status_code := status.HTTP_200_OK |}.

(** [def put(self, request, pk)] *)
Definition put (request : Request) (pk : Z) : M Response :=
  book ← get_object pk;
  '(valid, serializer) ←
    is_valid (new_serializer (Some book) (Some (request_data request)));
  if valid : bool then
    serializer ← save serializer;
    d ← data serializer;
    mret {| response_data := Some d; status_code := status.HTTP_200_OK |}
  else
    e ← errors serializer;
    mret {| response_data := Some e; status_code := status.HTTP_400_BAD_REQUEST |}.

(** [def delete(self, request, pk)] *)
Definition delete (request : Request) (pk : Z) : M Response :=
  book ← get_object pk;
  Book_delete book;;
  mret {| response_data := None; status_code := status.HTTP_204_NO_CONTENT |}.

End cbv_pk.

(** ** The dispatch of Django REST framework *)

Definition method_name (m : http_method) : string :=
  match m with
  | GET => "GET" | POST => "POST" | PUT => "PUT"
  | PATCH => "PATCH" | DELETE => "DELETE"
  end.

Definition detail_response (detail : string) (status : Z) : Response :=
  {| response_data := Some (JObj {[ "detail" := JStr detail ]});
     status_code := status |}.

(** [rest_framework.views.exception_handler]: [Http404] and the exceptions of
    the framework become a response with a [detail]; any other exception is
    not handled. *)
Definition exception_handler (e : exn) : option Response :=
  match e with
  | Http404 => Some (detail_response "Not found." status.HTTP_404_NOT_FOUND)
  | MethodNotAllowed m =>
      Some (detail_response
              ("Method " +:+ Py.dquote +:+ method_name m +:+ Py.dquote +:+ " not allowed.")
              status.HTTP_405_METHOD_NOT_ALLOWED)
  | DoesNotExist | AssertionError => None
  end.

(** [APIView.dispatch]: the handler runs, an exception goes to the exception
    handler, and what that does not handle is a server error. *)
Definition dispatch (handler : M Response) (s : Store) : Response * Store :=
  match handler s with
  | (Return response, s') => (response, s')
  | (Raise e, s') =>
      match exception_handler e with
      | Some response => (response, s')
      | None =>
          ({| response_data := None;
              status_code := status.HTTP_500_INTERNAL_SERVER_ERROR |}, s')
      end
  end.

(** [@api_view(http_method_names)]: a method outside the list is not allowed,
    the others call the function. *)
Definition api_view (http_method_names : list http_method)
    (func : Request → M Response) (request : Request) : M Response :=
  if decide (method request ∈ http_method_names) then func request
  else raise (MethodNotAllowed (method request)).

(** [APIView.as_view()]: the method of the class named after the request
    method, when the class has one. *)
Definition as_view (handlers : http_method → option (Request → M Response))
    (request : Request) : M Response :=
  match handlers (method request) with
  | Some handler => handler request
  | None => raise (MethodNotAllowed (method request))
  end.

(** ** [apis/urls.py]: the routes of the REST handlers *)

Inductive route : Type :=
  | rest_fbv_list                 (* rest/fbv/list *)
  | rest_fbv_pk (pk : Z)          (* rest/fbv/<int:pk> *)
  | rest_cbv_list                 (* rest/cbv/list *)
  | rest_cbv_pk (pk : Z).         (* rest/cbv/<int:pk> *)

Definition urlpatterns (r : route) : Request → M Response :=
  match r with
  | rest_fbv_list => api_view [GET; POST] fbv_list
  | rest_fbv_pk pk => api_view [GET; PUT; DELETE] (λ request, fbv_pk request pk)
  | rest_cbv_list =>
      as_view (λ m, match m with
                    | GET => Some cbv_list.get
                    | POST => Some cbv_list.post
                    | _ => None
                    end)
  | rest_cbv_pk pk =>
      as_view (λ m, match m with
                    | GET => Some (λ request, cbv_pk.get request pk)
                    | PUT => Some (λ request, cbv_pk.put request pk)
                    | DELETE => Some (λ request, cbv_pk.delete request pk)
                    | _ => None
                    end)
  end.

(** One request served at a route. *)
Definition serve (r : route) (request : Request) (s : Store) : Response * Store :=
  dispatch (urlpatterns r request) s.

(** A sequence of requests served one after the other. *)
Fixpoint serve_all (rs : list (route * Request)) (s : Store) : Store :=
  match rs with
  | [] => s
  | (r, request) :: rs' => serve_all rs' (serve r request s).2
  end.

(** ** The operations of the resource: List, Create, Retrieve, Update, Delete *)

Inductive style : Type := fbv | cbv.

Definition collection (st : style) : route :=
  match st with fbv => rest_fbv_list | cbv => rest_cbv_list end.

Definition item (st : style) (pk : Z) : route :=
  match st with fbv => rest_fbv_pk pk | cbv => rest_cbv_pk pk end.

Definition List (st : style) : Store → Response * Store :=
  serve (collection st) {| method := GET; request_data := JNull |}.

Definition Create (st : style) (payload : json) : Store → Response * Store :=
  serve (collection st) {| method := POST; request_data := payload |}.

Definition Retrieve (st : style) (pk : Z) : Store → Response * Store :=
  serve (item st pk) {| method := GET; request_data := JNull |}.

Definition Update (st : style) (pk : Z) (payload : json) : Store → Response * Store :=
  serve (item st pk) {| method := PUT; request_data := payload |}.

Definition Delete (st : style) (pk : Z) : Store → Response * Store :=
  serve (item st pk) {| method := DELETE; request_data := JNull |}.

(** The value of a key of a JSON object. *)
Definition json_get (j : json) (key : string) : option json :=
  match j with
  | JObj m => m !! key
  | _ => None
  end.

(** The database after each of the three writes of the model layer. *)
Definition created (s : Store) (v : Book) : Store := (Book_objects_create v s).2.
Definition saved (s : Store) (pk : Z) (v : Book) : Store := (Book_save (pk, v) s).2.
Definition deleted (s : Store) (pk : Z) (b : Book) : Store := (Book_delete (pk, b) s).2.

(** The response to an id that does not resolve: no data from the function
    based handler, the detail of the framework from the class based one. *)
Definition not_found (st : style) : Response :=
  match st with
  | fbv => {| response_data := None; status_code := status.HTTP_404_NOT_FOUND |}
  | cbv => detail_response "Not found." status.HTTP_404_NOT_FOUND
  end.

(** Every review refers to a book of the store. *)
Definition referential_integrity (s : Store) : Prop :=
  ∀ pk r, Review_objects s !! pk = Some r → is_Some (Book_objects s !! book r).

(** No book has a primary key beyond the sequence. *)
Definition ids_below_seq (s : Store) : Prop :=
  ∀ pk, is_Some (Book_objects s !! pk) → pk ≤ Book_id_seq s.

(** The states that a sequence of requests reaches from [s0]. *)
Inductive reachable (s0 : Store) : Store → Prop :=
  | reachable_refl : reachable s0 s0
  | reachable_step s r request :
      reachable s0 s → reachable s0 (serve r request s).2.

(** A payload in the form in which a book is represented: the title and the
    author are strings without surrounding whitespace, the date is written
    YYYY-MM-DD. *)
Definition normal_form (payload : gmap string json) : Prop :=
  (∃ t, payload !! "title" = Some (JStr t) ∧ Py.strip t = t)
  ∧ (∃ a, payload !! "author" = Some (JStr a) ∧ Py.strip a = a)
  ∧ (∃ d, payload !! "published_date" = Some (JStr (Datetime.isoformat d))
          ∧ Datetime.valid_date d).

(** The fields of a review payload other than the rating pass validation. *)
Definition other_review_fields_valid (s : Store) (payload : gmap string json) : Prop :=
  (∃ b, PrimaryKeyRelatedField_run_validation s (payload !! "book") = Valid b)
  ∧ (∃ r, CharField_run_validation (Some Review_reviewer_max_length)
            (payload !! "reviewer") = Valid r)
  ∧ (∃ t, CharField_run_validation None (payload !! "text") = Valid t).

(** ** Sample data *)

Definition empty_store : Store :=
  {| Book_objects := ∅; Review_objects := ∅; Book_id_seq := 0 |}.

Definition dune : Book :=
  {| title := "Dune"; author := "Frank Herbert";
     published_date := Date 1965 6 1 |}.

Definition emma : Book :=
  {| title := "Emma"; author := "Jane Austen";
     published_date := Date 1815 12 23 |}.

Definition great : Review :=
  {| book := 1; reviewer := "Alice"; text := "Great"; rating := 5;
     created_at := "2024-01-01T00:00:00Z" |}.

Definition witty : Review :=
  {| book := 2; reviewer := "Bob"; text := "Witty"; rating := 4;
     created_at := "2024-01-02T00:00:00Z" |}.

(** Two books, each with one review. *)
Definition library : Store :=
  {| Book_objects := {[ 1 := dune; 2 := emma ]};
     Review_objects := {[ 1 := great; 2 := witty ]};
     Book_id_seq := 2 |}.

Definition dune_payload : gmap string json :=
  {[ "title" := JStr "Dune"; "author" := JStr "Frank Herbert";
     "published_date" := JStr "1965-06-01" ]}.

(** The same book, its title submitted with a leading blank. *)
Definition padded_payload : gmap string json :=
  <["title" := JStr " Dune"]> dune_payload.

(** A payload without author and date. *)
Definition title_only : gmap string json := {[ "title" := JStr "Dune" ]}.

Definition review_payload (r : Z) : gmap string json :=
  {[ "book" := JInt 1; "reviewer" := JStr "Alice"; "text" := JStr "Great";
     "rating" := JInt r ]}.

(** ** [apis/models.py]: the [__str__] methods *)

(** [Book.__str__] *)
Definition Book_str (b : Book) : string := title b.

(** [Review.__str__]: [self.book] fetches the book that the review refers
    to. *)
Definition Review_str (r : Review) : M string :=
  b ← Book_objects_get (book r);
  mret (reviewer r +:+ " - " +:+ title b.2).

(** ** [apis/views.py]: the two plain Django views *)

(** [def Pure_Json(request)] *)
Definition Pure_Json (request : Request) : M Response :=
  let books :=
    [ JObj {[ "id" := JInt 1; "title" := JStr "To Kill a Mockingbird";
              "author" := JStr "Harper Lee"; "reviews" := JArr [] ]};
      JObj {[ "id" := JInt 2; "title" := JStr "1984";
              "author" := JStr "George Orwell"; "reviews" := JArr [] ]} ] in
  mret {| response_data := Some (JArr books); status_code := status.HTTP_200_OK |}.

(** [Review.objects.all()], evaluated. *)
Definition Review_objects_all : M (list (Z * Review)) :=
  s ← get_store; mret (map_to_list (Review_objects s)).

(** A row of the table of reviews, column by column; the column of the
    foreign key holds the primary key of the book. *)
Definition Review_row (row : Z * Review) : gmap string json :=
  {[ "id" := JInt row.1; "book" := JInt (book row.2);
     "reviewer" := JStr (reviewer row.2); "text" := JStr (text row.2);
     "rating" := JInt (rating row.2); "created_at" := JStr (created_at row.2) ]}.

(** [queryset.values(fields)]: each row as a dictionary of the named
    columns. *)
Definition values (fields : list string) (rows : list (Z * Review)) : list json :=
  (λ row, JObj (filter (λ kv, kv.1 ∈ fields) (Review_row row))) <$> rows.

(** [def Pure_Json_Model(request)] *)
Definition Pure_Json_Model (request : Request) : M Response :=
  data ← Review_objects_all;
  let response :=
    JObj {[ "review" := JArr (values ["book"; "reviewer"; "text"; "rating"] data) ]} in
  mret {| response_data := Some response; status_code := status.HTTP_200_OK |}.

(** A plain Django view runs for every request method; an exception that it
    does not catch is a server error, [Http404] a 404. *)
Definition django_view (view : Request → M Response) (request : Request)
    (s : Store) : Response * Store :=
  match view request s with
  | (Return response, s') => (response, s')
  | (Raise Http404, s') =>
      ({| response_data := None; status_code := status.HTTP_404_NOT_FOUND |}, s')
  | (Raise _, s') =>
      ({| response_data := None;
          status_code := status.HTTP_500_INTERNAL_SERVER_ERROR |}, s')
  end.

(** ** [apis/urls.py]: the resolution of a path *)

(** What a path resolves to: one of the plain views, one of the embedded REST
    routes, one of the framework classes, or the router of the viewset with
    the rest of the path. *)
Inductive ResolverMatch : Type :=
  | to_Pure_Json
  | to_Pure_Json_Model
  | to_rest (r : route)
  | to_mixins_list
  | to_mixins_pk (pk : Z)
  | to_generics_list
  | to_generics_pk (pk : Z)
  | to_router (rest : string).

(** The rest of [s] after the prefix [p]. *)
Fixpoint strip_prefix (p s : string) : option string :=
  match p, s with
  | EmptyString, _ => Some s
  | String a p', String b s' => if Ascii.eqb a b then strip_prefix p' s' else None
  | String _ _, EmptyString => None
  end.

(** The converter [int] of a path: one or more digits, read by [int]. *)
Definition IntConverter (segment : string) : option Z := Py.digits segment.

(** [path(route, view)] with a route without parameters: the whole path. *)
Definition path (route : string) (view : ResolverMatch) (p : string)
    : option ResolverMatch :=
  if decide (p = route) then Some view else None.

(** [path(prefix + '<int:pk>', view)] *)
Definition path_int (prefix : string) (view : Z → ResolverMatch) (p : string)
    : option ResolverMatch :=
  segment ← strip_prefix prefix p; pk ← IntConverter segment; Some (view pk).

(** [path(prefix, include(router.urls))] *)
Definition path_include (prefix : string) (p : string) : option ResolverMatch :=
  to_router <$> strip_prefix prefix p.

(** [urlpatterns], in the order of the file. *)
Definition urlpatterns_list : list (string → option ResolverMatch) :=
  [ path "django/PureDjanogJsonNoMdel" to_Pure_Json;
    path "django/PureDjanogJsonWithModel" to_Pure_Json_Model;
    path "rest/fbv/list" (to_rest rest_fbv_list);
    path_int "rest/fbv/" (λ pk, to_rest (rest_fbv_pk pk));
    path "rest/cbv/list" (to_rest rest_cbv_list);
    path_int "rest/cbv/" (λ pk, to_rest (rest_cbv_pk pk));
    path "rest/mixins/list" to_mixins_list;
    path_int "rest/mixins/" to_mixins_pk;
    path "rest/generics/list" to_generics_list;
    path_int "rest/generics/" to_generics_pk;
    path_include "rest/viewset/" ].

(** The first pattern that matches the path, relative to the place where the
    project includes [apis.urls]. *)
Definition resolve (p : string) : option ResolverMatch :=
  head (omap (λ pattern, pattern p) urlpatterns_list).

(** ** Notions for the further properties *)



(** A text as the character fields store it: no surrounding whitespace, not
    empty, within the maximal length, without null character. *)
Definition well_formed_text (max_len : Z) (t : string) : Prop :=
  Py.strip t = t ∧ t ≠ EmptyString ∧ Py.len t ≤ max_len
  ∧ Py.contains "000" t = false.

(** A book as the declarations of [Book] want it. *)
Definition well_formed_book (b : Book) : Prop :=
  well_formed_text Book_title_max_length (title b)
  ∧ well_formed_text Book_author_max_length (author b)
  ∧ Datetime.valid_date (published_date b).

Definition all_books_well_formed (s : Store) : Prop :=
  ∀ pk b, Book_objects s !! pk = Some b → well_formed_book b.

(** The representation of a book as a payload. *)
Definition representation_payload (pk : Z) (b : Book) : gmap string json :=
  <["id" := JInt pk]> (fields_to_representation b).

(** The path of an item, as a client writes it. *)
Definition item_path (st : style) (pk : Z) : string :=
  match st with fbv => "rest/fbv/" | cbv => "rest/cbv/" end +:+ Py.str_of_int pk.

(** * Proofs *)

(** ** The handlers, operation by operation *)

Ltac run :=
  repeat (progress
    (cbv [serve dispatch urlpatterns api_view as_view collection item
          fbv_list fbv_pk cbv_list.get cbv_list.post
          cbv_pk.get cbv_pk.put cbv_pk.delete cbv_pk.get_object
          try_except Book_objects_get Book_objects_all Book_objects_create
          Book_save Book_delete created saved deleted not_found
          is_valid save data errors has_errors new_serializer
          raise get_store put_store mbind mret M_bind M_ret
          method request_data instance initial_data _validated_data _errors
          exception_handler] in *; simpl in *)).

Ltac in_list :=
  repeat first [apply list_elem_of_here | apply list_elem_of_further].

Lemma List_eq st s :
  List st s =
    ({| response_data := Some (many_data (map_to_list (Book_objects s)));
        status_code := 200 |}, s).
Proof. destruct st; reflexivity. Qed.

Lemma Retrieve_found st s pk b :
  Book_objects s !! pk = Some b →
  Retrieve st pk s =
    ({| response_data := Some (to_representation (pk, b)); status_code := 200 |}, s).
Proof. intros Hb. destruct st; unfold Retrieve; run; rewrite Hb; reflexivity. Qed.

Lemma Retrieve_missing st s pk :
  Book_objects s !! pk = None → Retrieve st pk s = (not_found st, s).
Proof. intros Hb. destruct st; unfold Retrieve; run; rewrite Hb; reflexivity. Qed.

Lemma Create_valid st s payload v :
  run_validation s payload = inr v →
  Create st payload s =
    ({| response_data := Some (to_representation (Book_id_seq s + 1, v));
        status_code := 201 |}, created s v).
Proof. intros Hv. destruct st; unfold Create; run; rewrite Hv; reflexivity. Qed.

Lemma Create_invalid st s payload (e : gmap string (list ErrorDetail)) :
  run_validation (Model := Book) s payload = inl e →
  Create st payload s =
    ({| response_data := Some (get_initial (new_serializer (Model := Book) None (Some payload)));
        status_code := 400 |}, s).
Proof.
  intros Hv. destruct st; unfold Create; run; rewrite Hv; run;
    destruct (bool_decide (e = ∅)); reflexivity.
Qed.

Lemma Update_valid st s pk b payload v :
  Book_objects s !! pk = Some b →
  run_validation s payload = inr v →
  Update st pk payload s =
    ({| response_data := Some (to_representation (pk, v)); status_code := 200 |},
     saved s pk v).
Proof.
  intros Hb Hv.
  destruct st; unfold Update; run; rewrite Hb; run; rewrite Hv; run;
    destruct v; reflexivity.
Qed.

Lemma Update_invalid st s pk b payload (e : gmap string (list ErrorDetail)) :
  Book_objects s !! pk = Some b →
  run_validation (Model := Book) s payload = inl e →
  Update st pk payload s =
    ({| response_data := Some (errors_json e); status_code := 400 |}, s).
Proof.
  intros Hb Hv.
  destruct st; unfold Update; run; rewrite Hb; run; rewrite Hv; reflexivity.
Qed.

Lemma Update_missing st s pk payload :
  Book_objects s !! pk = None → Update st pk payload s = (not_found st, s).
Proof. intros Hb. destruct st; unfold Update; run; rewrite Hb; reflexivity. Qed.

Lemma Delete_found st s pk b :
  Book_objects s !! pk = Some b →
  Delete st pk s =
    ({| response_data := None; status_code := 204 |}, deleted s pk b).
Proof. intros Hb. destruct st; unfold Delete; run; rewrite Hb; reflexivity. Qed.

Lemma Delete_missing st s pk :
  Book_objects s !! pk = None → Delete st pk s = (not_found st, s).
Proof. intros Hb. destruct st; unfold Delete; run; rewrite Hb; reflexivity. Qed.

(** Whatever the route and the request, the database afterwards is the one
    before, or the result of one write of the model layer. *)
Lemma serve_store r request s :
  (serve r request s).2 = s
  ∨ (∃ v, (serve r request s).2 = created s v)
  ∨ (∃ pk b v, Book_objects s !! pk = Some b ∧ (serve r request s).2 = saved s pk v)
  ∨ (∃ pk b, Book_objects s !! pk = Some b ∧ (serve r request s).2 = deleted s pk b).
Proof.
  destruct request as [m d].
  destruct r as [|pk| |pk], m; run; auto;
    try (destruct (Book_objects s !! pk) as [b|] eqn:Hb; run; auto);
    try (destruct (run_validation s d) as [e|v] eqn:Hv; run;
         [destruct (bool_decide (e = ∅)); auto|]);
    eauto 10.
  all: try (destruct v; eauto 10).
Qed.

(** ** The three writes and the invariants of the store *)

Lemma referential_integrity_created s v :
  referential_integrity s → referential_integrity (created s v).
Proof.
  intros Hs pk r Hr. run. specialize (Hs pk r Hr).
  destruct (decide (Book_id_seq s + 1 = book r)) as [->|Hne].
  - rewrite lookup_insert_eq. eauto.
  - by rewrite lookup_insert_ne.
Qed.

Lemma referential_integrity_saved s pk v :
  referential_integrity s → referential_integrity (saved s pk v).
Proof.
  intros Hs k r Hr. run. specialize (Hs k r Hr).
  destruct (decide (pk = book r)) as [->|Hne].
  - rewrite lookup_insert_eq. eauto.
  - by rewrite lookup_insert_ne.
Qed.

Lemma referential_integrity_deleted s pk b :
  referential_integrity s → referential_integrity (deleted s pk b).
Proof.
  intros Hs k r Hr. run.
  apply map_lookup_filter_Some in Hr as [Hr Hne]. simpl in Hne.
  rewrite lookup_delete_ne by congruence. eauto.
Qed.

Lemma referential_integrity_serve r request s :
  referential_integrity s → referential_integrity (serve r request s).2.
Proof.
  intros Hs.
  destruct (serve_store r request s)
    as [-> | [[v ->] | [(pk & b & v & _ & ->) | (pk & b & _ & ->)]]];
    auto using referential_integrity_created, referential_integrity_saved,
               referential_integrity_deleted.
Qed.

(** The sequence stays ahead of the primary keys, so the key that [create]
    assigns is a new one. *)
Lemma ids_below_seq_serve r request s :
  ids_below_seq s → ids_below_seq (serve r request s).2.
Proof.
  intros Hs.
  destruct (serve_store r request s)
    as [-> | [[v ->] | [(pk & b & v & Hb & ->) | (pk & b & _ & ->)]]]; [done|..];
    intros k; run.
  - destruct (decide (Book_id_seq s + 1 = k)) as [<-|Hne]; [lia|].
    rewrite lookup_insert_ne by done. intros Hk%Hs. lia.
  - destruct (decide (pk = k)) as [<-|Hne]; [intros _; apply Hs; eauto|].
    rewrite lookup_insert_ne by done. apply Hs.
  - destruct (decide (pk = k)) as [<-|Hne].
    + rewrite lookup_delete_eq. by intros [? ?].
    + rewrite lookup_delete_ne by done. apply Hs.
Qed.

Lemma created_fresh s :
  ids_below_seq s → Book_objects s !! (Book_id_seq s + 1) = None.
Proof.
  intros Hs. destruct (Book_objects s !! (Book_id_seq s + 1)) eqn:Hk; [|done].
  assert (Book_id_seq s + 1 ≤ Book_id_seq s) by (apply Hs; eauto). lia.
Qed.

(** ** Field validation *)

Lemma CharField_valid_inv max_len d v :
  CharField_run_validation max_len d = Valid v →
  (∃ s, d = Some (JStr s) ∧ v = Py.strip s)
  ∨ (∃ z, d = Some (JInt z) ∧ v = Py.strip (Py.str_of_int z)).
Proof.
  unfold CharField_run_validation.
  destruct (is_blank d); [discriminate|].
  destruct d as [[| | z | s | |]|]; cbv [mbind validation_bind]; simpl;
    try discriminate; unfold run_validators;
    (destruct (omap _ _); [|discriminate]); intros [= <-]; eauto.
Qed.

Lemma DateField_valid_inv d v :
  DateField_run_validation d = Valid v →
  ∃ s, d = Some (JStr s) ∧ Datetime.parse_date s = Some v.
Proof.
  destruct d as [[| | z | s | |]|];
    cbv [DateField_run_validation mbind validation_bind]; simpl; try discriminate.
  destruct (Datetime.parse_date s) eqn:Hp; [|discriminate].
  intros [= <-]. eauto.
Qed.

Lemma BookSerializer_valid_inv s m v :
  BookSerializer_to_internal_value s m = inr v →
  CharField_run_validation (Some Book_title_max_length) (m !! "title") = Valid (title v)
  ∧ CharField_run_validation (Some Book_author_max_length) (m !! "author")
    = Valid (author v)
  ∧ DateField_run_validation (m !! "published_date") = Valid (published_date v).
Proof.
  unfold BookSerializer_to_internal_value.
  destruct (CharField_run_validation _ (m !! "title")),
           (CharField_run_validation _ (m !! "author")),
           (DateField_run_validation _); try discriminate.
  intros [= <-]. auto.
Qed.

Lemma CharField_required max_len :
  CharField_run_validation max_len None = Invalid [required].
Proof. reflexivity. Qed.

Lemma DateField_required : DateField_run_validation None = Invalid [required].
Proof. reflexivity. Qed.

Lemma field_errors_lookup_ne {A} name key (r : validation A) errors :
  name ≠ key → field_errors name r errors !! key = errors !! key.
Proof. intros Hne. destruct r; simpl; [done|]. by rewrite lookup_insert_ne. Qed.

Lemma field_errors_lookup_eq {A} name detail errors :
  field_errors name (Invalid (A := A) detail) errors !! name = Some detail.
Proof. apply lookup_insert_eq. Qed.

(** A missing field is an error of the serializer. *)
Lemma BookSerializer_required s m field_name :
  field_name ∈ writable_fields (Model := Book) →
  m !! field_name = None →
  ∃ e, BookSerializer_to_internal_value s m = inl e
       ∧ e !! field_name = Some [required].
Proof.
  intros Hf Hm. unfold BookSerializer_to_internal_value.
  simpl in Hf. rewrite !elem_of_cons, elem_of_nil in Hf.
  destruct Hf as [-> | [-> | [-> | []]]]; rewrite Hm;
    rewrite ?CharField_required, ?DateField_required.
  - eexists; split; [reflexivity|]. apply field_errors_lookup_eq.
  - destruct (CharField_run_validation _ (m !! "title"));
      (eexists; split; [reflexivity|]);
      rewrite ?field_errors_lookup_ne by done; apply field_errors_lookup_eq.
  - destruct (CharField_run_validation _ (m !! "title")),
             (CharField_run_validation _ (m !! "author"));
      (eexists; split; [reflexivity|]);
      rewrite ?field_errors_lookup_ne by done; apply field_errors_lookup_eq.
Qed.

(** ** Dates: parsing what [isoformat] writes *)

Lemma digit_cases n :
  0 ≤ n ≤ 9 →
  n = 0 ∨ n = 1 ∨ n = 2 ∨ n = 3 ∨ n = 4 ∨ n = 5 ∨ n = 6 ∨ n = 7 ∨ n = 8 ∨ n = 9.
Proof. lia. Qed.

Lemma digit_val_char n : 0 ≤ n ≤ 9 → Py.digit_val (Py.digit_char n) = Some n.
Proof.
  intros Hc%digit_cases.
  repeat destruct Hc as [-> | Hc]; try subst n; reflexivity.
Qed.

Lemma digit_char_not_dash n : 0 ≤ n ≤ 9 → Ascii.eqb "-" (Py.digit_char n) = false.
Proof.
  intros Hc%digit_cases.
  repeat destruct Hc as [-> | Hc]; try subst n; reflexivity.
Qed.

Lemma make_date_inv y m d x :
  Datetime.make_date y m d = Some x →
  x = Date y m d ∧ 1 ≤ y ≤ 9999 ∧ 1 ≤ m ≤ 12 ∧ 1 ≤ d ≤ 31.
Proof.
  unfold Datetime.make_date.
  destruct (_ && _) eqn:Hc; [|discriminate]. intros [= <-].
  repeat (apply andb_prop in Hc as [Hc ?]).
  split; [done|].
  assert (Datetime.days_in_month y m ≤ 31).
  { unfold Datetime.days_in_month. repeat case_match; lia. }
  lia.
Qed.

Section parse_date.

Local Arguments Ascii.eqb : simpl never.
Local Arguments Py.digit_char : simpl never.
Local Arguments Py.digit_val : simpl never.

Lemma parse_date_digits y1 y2 y3 y4 m1 m2 d1 d2 :
  0 ≤ y1 ≤ 9 → 0 ≤ y2 ≤ 9 → 0 ≤ y3 ≤ 9 → 0 ≤ y4 ≤ 9 →
  0 ≤ m1 ≤ 9 → 0 ≤ m2 ≤ 9 → 0 ≤ d1 ≤ 9 → 0 ≤ d2 ≤ 9 →
  Datetime.parse_date
    (String (Py.digit_char y1) (String (Py.digit_char y2)
       (String (Py.digit_char y3) (String (Py.digit_char y4)
          (String "-" (String (Py.digit_char m1) (String (Py.digit_char m2)
             (String "-" (String (Py.digit_char d1) (String (Py.digit_char d2)
                EmptyString))))))))))
  = Datetime.make_date (10 * (10 * (10 * y1 + y2) + y3) + y4)
      (10 * m1 + m2) (10 * d1 + d2).
Proof.
  intros. unfold Datetime.parse_date. simpl.
  rewrite !digit_char_not_dash by done. simpl.
  unfold Datetime.day_group, Datetime.digits_1_2. simpl.
  repeat (rewrite digit_val_char by done; simpl).
  f_equal; lia.
Qed.

Lemma parse_date_isoformat d :
  Datetime.valid_date d → Datetime.parse_date (Datetime.isoformat d) = Some d.
Proof.
  unfold Datetime.valid_date. intros Hd.
  destruct (make_date_inv _ _ _ _ Hd) as (_ & Hy & Hm & Hdd).
  destruct d as [y m dd]; simpl in *.
  assert (0 ≤ y / 1000 ≤ 9 ∧ 0 ≤ (y / 100) mod 10 ≤ 9 ∧ 0 ≤ (y / 10) mod 10 ≤ 9
          ∧ 0 ≤ y mod 10 ≤ 9 ∧ 0 ≤ m / 10 ≤ 9 ∧ 0 ≤ m mod 10 ≤ 9
          ∧ 0 ≤ dd / 10 ≤ 9 ∧ 0 ≤ dd mod 10 ≤ 9) as (?&?&?&?&?&?&?&?)
    by (Z.div_mod_to_equations; lia).
  unfold Datetime.isoformat, Datetime.pad4, Datetime.pad2.
  cbv [String.app String.append year month day].
  rewrite parse_date_digits by done.
  rewrite <- Hd. f_equal; Z.div_mod_to_equations; lia.
Qed.

End parse_date.

(** A payload in normal form validates to the book it spells out. *)
Lemma normal_form_valid s m v :
  normal_form m →
  BookSerializer_to_internal_value s m = inr v →
  m !! "title" = Some (JStr (title v))
  ∧ m !! "author" = Some (JStr (author v))
  ∧ m !! "published_date" = Some (JStr (Datetime.isoformat (published_date v))).
Proof.
  intros ((t & Ht & Hts) & (a & Ha & Has) & (d & Hd & Hdv)) Hv.
  apply BookSerializer_valid_inv in Hv as (Hvt & Hva & Hvd).
  rewrite Ht in Hvt. rewrite Ha in Hva. rewrite Hd in Hvd.
  apply CharField_valid_inv in Hvt as [(? & [= <-] & ->) | (? & [=] & _)].
  apply CharField_valid_inv in Hva as [(? & [= <-] & ->) | (? & [=] & _)].
  apply DateField_valid_inv in Hvd as (? & [= <-] & Hp).
  rewrite parse_date_isoformat in Hp by done. injection Hp as <-.
  rewrite Hts, Has. auto.
Qed.

(** * The claims *)

(** ** Reads *)

(** C9: the read operations modify nothing.  For every store, List (GET on the
    collection) and Retrieve (GET on an item, whether or not the id resolves)
    leave the whole store, every book and every review, unchanged; in both
    handler styles. *)
Theorem reads_leave_store_unchanged (st : style) (s : Store) (pk : Z) :
  (List st s).2 = s ∧ (Retrieve st pk s).2 = s.
Proof.
  split; [by rewrite List_eq|].
  destruct (Book_objects s !! pk) as [b|] eqn:Hb.
  - by rewrite (Retrieve_found _ _ _ b).
  - by rewrite Retrieve_missing.
Qed.

(** ** Ids that do not resolve *)

(** C4, as the code has it: for every id that is not in the store, each of
    Retrieve, Update and Delete responds 404 and leaves the store unchanged.
    The function based handler sends no data (an empty body); the class based
    handler raises [Http404], and the framework answers with its error detail
    [{"detail": "Not found."}].  Neither body is an entity, partial or
    default. *)
Theorem missing_id_is_404 (st : style) (s : Store) (pk : Z) (payload : json) :
  Book_objects s !! pk = None →
  let expected :=
    {| response_data :=
         match st with
         | fbv => None
         | cbv => Some (JObj {[ "detail" := JStr "Not found." ]})
         end;
       status_code := 404 |} in
  Retrieve st pk s = (expected, s)
  ∧ Update st pk payload s = (expected, s)
  ∧ Delete st pk s = (expected, s).
Proof.
  intros Hb. simpl.
  rewrite Retrieve_missing, Update_missing, Delete_missing by done.
  by destruct st.
Qed.

Lemma missing_id_is_404_witness :
  Retrieve cbv 7 library
  = ({| response_data := Some (JObj {[ "detail" := JStr "Not found." ]});
        status_code := 404 |}, library)
  ∧ Update fbv 7 (JObj dune_payload) library
    = ({| response_data := None; status_code := 404 |}, library).
Proof.
  split.
  - apply (missing_id_is_404 cbv library 7 JNull). reflexivity.
  - apply (missing_id_is_404 fbv library 7 (JObj dune_payload)). reflexivity.
Defined.

(** C4, as stated, fails in the class based handler: Retrieve of the id 1 in
    the empty store responds 404 with a body that is not empty. *)
Lemma missing_id_body_not_empty :
  Book_objects empty_store !! 1 = None
  ∧ status_code (Retrieve cbv 1 empty_store).1 = 404
  ∧ response_data (Retrieve cbv 1 empty_store).1
    = Some (JObj {[ "detail" := JStr "Not found." ]})
  ∧ response_data (Retrieve cbv 1 empty_store).1 ≠ None.
Proof. repeat split. discriminate. Qed.

(** ** Writes that fail validation *)

(** C6: Create and Update are atomic with respect to the store.  For every
    payload that fails the validation of the serializer, the store after the
    failed Create or Update is exactly the store before it, so a following
    List shows the same entities. *)
Theorem invalid_write_leaves_store_unchanged
    (st : style) (s : Store) (pk : Z) (payload : json)
    (e : gmap string (list ErrorDetail)) :
  run_validation (Model := Book) s payload = inl e →
  (Create st payload s).2 = s
  ∧ (Update st pk payload s).2 = s
  ∧ (∀ st', List st' (Create st payload s).2 = List st' s)
  ∧ (∀ st', List st' (Update st pk payload s).2 = List st' s).
Proof.
  intros He.
  assert ((Create st payload s).2 = s) as Hc by (by erewrite Create_invalid).
  assert ((Update st pk payload s).2 = s) as Hu.
  { destruct (Book_objects s !! pk) as [b|] eqn:Hb.
    - by erewrite Update_invalid.
    - by rewrite Update_missing. }
  rewrite Hc, Hu. auto.
Qed.

Lemma invalid_write_leaves_store_unchanged_witness :
  (Create fbv (JObj title_only) library).2 = library
  ∧ (Update fbv 1 (JObj title_only) library).2 = library.
Proof.
  assert (run_validation (Model := Book) library (JObj title_only)
          = inl {[ "author" := [required]; "published_date" := [required] ]}) as He
    by (vm_compute; reflexivity).
  destruct (invalid_write_leaves_store_unchanged fbv library 1 _ _ He)
    as (Hc & Hu & _).
  split; assumption.
Defined.

(** ** Delete *)

(** C3: for every book id in the store, Delete responds 204 with no data,
    removes the book and removes every review whose book is that id: none of
    those review ids resolves afterwards, and neither does the book id. *)
Theorem delete_cascades (st : style) (s : Store) (pk : Z) (b : Book) :
  Book_objects s !! pk = Some b →
  let '(response, s') := Delete st pk s in
  response = {| response_data := None; status_code := 204 |}
  ∧ Book_objects s' !! pk = None
  ∧ (∀ k r, Review_objects s !! k = Some r → book r = pk →
            Review_objects s' !! k = None)
  ∧ (Retrieve st pk s').1 = not_found st.
Proof.
  intros Hb. rewrite (Delete_found _ _ _ b) by done.
  assert (Book_objects (deleted s pk b) !! pk = None) as Hgone
    by (run; apply lookup_delete_eq).
  split_and!; [done|done| |by rewrite Retrieve_missing].
  intros k r Hr Hk. run.
  apply map_lookup_filter_None. right. intros r' Hr'. simpl.
  rewrite Hr in Hr'. injection Hr' as <-. auto.
Qed.

Lemma delete_cascades_witness :
  (Delete fbv 1 library).1 = {| response_data := None; status_code := 204 |}
  ∧ Book_objects (Delete fbv 1 library).2 !! 1 = None
  ∧ Review_objects (Delete fbv 1 library).2 !! 1 = None.
Proof.
  pose proof (delete_cascades fbv library 1 dune eq_refl) as H.
  destruct (Delete fbv 1 library) as [response s'].
  destruct H as (Hr & Hb & Hc & _).
  split_and!; [exact Hr|exact Hb|].
  exact (Hc 1 great eq_refl eq_refl).
Defined.

(** C10: cascade delete is precisely scoped.  For every book id in the store,
    Delete leaves every other book unchanged and every review of another book
    unchanged: a book is gone only if it is that book, a review only if it
    refers to that book. *)
Theorem delete_frame (st : style) (s : Store) (pk : Z) (b : Book) :
  Book_objects s !! pk = Some b →
  let s' := (Delete st pk s).2 in
  (∀ k, k ≠ pk → Book_objects s' !! k = Book_objects s !! k)
  ∧ (∀ k r, Review_objects s !! k = Some r → book r ≠ pk →
            Review_objects s' !! k = Some r)
  ∧ (∀ k r, Review_objects s' !! k = Some r →
            Review_objects s !! k = Some r ∧ book r ≠ pk)
  ∧ Book_id_seq s' = Book_id_seq s.
Proof.
  intros Hb. rewrite (Delete_found _ _ _ b) by done. run.
  split_and!; [| | |done].
  - intros k Hk. by rewrite lookup_delete_ne.
  - intros k r Hr Hk. by apply map_lookup_filter_Some.
  - intros k r Hr. by apply map_lookup_filter_Some in Hr.
Qed.

Lemma delete_frame_witness :
  Book_objects (Delete cbv 1 library).2 !! 2 = Some emma
  ∧ Review_objects (Delete cbv 1 library).2 !! 2 = Some witty.
Proof.
  destruct (delete_frame cbv library 1 dune eq_refl) as (Hb & Hr & _).
  split.
  - rewrite Hb by discriminate. reflexivity.
  - apply Hr; [reflexivity|discriminate].
Defined.

(** ** Referential integrity *)

(** C8: referential integrity is an invariant of every operation.  From a
    store in which every review refers to an existing book, every store that
    a sequence of requests to the handlers reaches (List, Create, Retrieve,
    Update, Delete, and the requests that are refused) is again such a
    store. *)
Theorem referential_integrity_invariant (s0 s : Store) :
  referential_integrity s0 → reachable s0 s → referential_integrity s.
Proof.
  intros H0 Hreach. induction Hreach as [|s r request _ IH]; [done|].
  by apply referential_integrity_serve.
Qed.

Lemma referential_integrity_invariant_witness :
  referential_integrity (Delete fbv 1 (Create cbv (JObj dune_payload) library).2).2.
Proof.
  apply (referential_integrity_invariant library).
  - intros k r Hr. unfold library in *. simpl in *.
    apply lookup_insert_Some in Hr as [[<- <-] | [_ Hr]];
      [eexists; reflexivity|].
    apply lookup_singleton_Some in Hr as [<- <-].
    eexists; reflexivity.
  - apply reachable_step, reachable_step, reachable_refl.
Defined.

(** ** The rating of a review *)

Lemma rating_validation r :
  IntegerField_run_validation Review_rating_validators (Some (JInt r))
  = if 5 <? r then Invalid [max_value 5]
    else if r <? 1 then Invalid [min_value 1] else Valid r.
Proof.
  cbv [IntegerField_run_validation mbind validation_bind validate_empty_values
       IntegerField_to_internal_value run_validators IntegerField_validators
       Review_rating_validators model_max_value model_min_value].
  simpl.
  destruct (5 <? r) eqn:Hmax, (r <? 1) eqn:Hmin; try reflexivity. lia.
Qed.

(** C2: for every integer rating r, the validation of a review payload with
    rating r by [ReviewSerializer] fails when r is outside [1,5], with an
    error on the field [rating], and succeeds with the rating r when r is
    inside [1,5] and the other fields of the review are valid.  Validation
    stores nothing: [is_valid] returns the store as it was.  (No route creates
    a review, so there is no response to speak of.) *)
Theorem rating_range (s : Store) (m : gmap string json) (r : Z) :
  m !! "rating" = Some (JInt r) →
  let serializer := new_serializer (Model := Review) None (Some (JObj m)) in
  (r < 1 ∨ 5 < r →
     ∃ e, is_valid serializer s
          = (Return (false, {| instance := None; initial_data := Some (JObj m);
                               _validated_data := None; _errors := Some e |}), s)
          ∧ e !! "rating"
            = Some [if decide (r < 1) then min_value 1 else max_value 5])
  ∧ (1 ≤ r ≤ 5 → other_review_fields_valid s m →
     ∃ v, is_valid serializer s
          = (Return (true, {| instance := None; initial_data := Some (JObj m);
                              _validated_data := Some v; _errors := Some ∅ |}), s)
          ∧ rating v = r).
Proof.
  intros Hr. simpl. run. unfold ReviewSerializer_to_internal_value.
  rewrite Hr, rating_validation. split.
  - intros Hout.
    assert (∃ d, (if 5 <? r then Invalid [max_value 5]
                  else if r <? 1 then Invalid [min_value 1] else Valid r)
                 = Invalid [d]
                 ∧ d = if decide (r < 1) then min_value 1 else max_value 5)
      as (d & -> & ->).
    { destruct (5 <? r) eqn:Hmax, (r <? 1) eqn:Hmin, (decide (r < 1)); eauto; lia. }
    destruct (PrimaryKeyRelatedField_run_validation _ _),
             (CharField_run_validation _ (m !! "reviewer")),
             (CharField_run_validation _ (m !! "text"));
      (eexists; split; [reflexivity|]);
      rewrite ?field_errors_lookup_ne by done; apply field_errors_lookup_eq.
  - intros Hin ((b & ->) & (rv & ->) & (t & ->)).
    replace (5 <? r) with false by lia. replace (r <? 1) with false by lia.
    eexists; split; reflexivity.
Qed.

Lemma rating_range_witness :
  (∃ e, (is_valid (new_serializer (Model := Review) None
                     (Some (JObj (review_payload 6)))) library).1
        = Return (false, {| instance := None;
                            initial_data := Some (JObj (review_payload 6));
                            _validated_data := None; _errors := Some e |})
        ∧ e !! "rating" = Some [max_value 5])
  ∧ (∃ v, (is_valid (new_serializer (Model := Review) None
                       (Some (JObj (review_payload 3)))) library).1
          = Return (true, {| instance := None;
                             initial_data := Some (JObj (review_payload 3));
                             _validated_data := Some v; _errors := Some ∅ |})
          ∧ rating v = 3).
Proof.
  split.
  - destruct (rating_range library (review_payload 6) 6 eq_refl) as [Hout _].
    destruct Hout as (e & He & Hrating); [right; lia|].
    exists e. rewrite He. split; [reflexivity|exact Hrating].
  - destruct (rating_range library (review_payload 3) 3 eq_refl) as [_ Hin].
    destruct Hin as (v & Hv & Hrating); [lia| |].
    + repeat split; eexists; vm_compute; reflexivity.
    + exists v. rewrite Hv. split; [reflexivity|exact Hrating].
Defined.

(** ** The body of a failed Create *)

(** C1, at a payload that fails validation, the title alone: the validation
    reports the two missing fields, and Update on the existing book 1 responds
    400 with these error details; Create responds 400 as well, but its body is
    [serializer.data], the submitted values, not [serializer.errors]. *)
Theorem Create_invalid_body (st : style) :
  let details : gmap string (list ErrorDetail) :=
    {[ "author" := [required]; "published_date" := [required] ]} in
  run_validation (Model := Book) library (JObj title_only) = inl details
  ∧ errors_json details
    = JObj {[ "author" := JArr [JStr "This field is required."];
              "published_date" := JArr [JStr "This field is required."] ]}
  ∧ Update st 1 (JObj title_only) library
    = ({| response_data := Some (errors_json details); status_code := 400 |}, library)
  ∧ Create st (JObj title_only) library
    = ({| response_data := Some (JObj title_only); status_code := 400 |}, library)
  ∧ JObj title_only ≠ errors_json details.
Proof.
  simpl.
  assert (run_validation (Model := Book) library (JObj title_only)
          = inl {[ "author" := [required]; "published_date" := [required] ]}) as He
    by (vm_compute; reflexivity).
  split; [|split; [|split; [|split]]].
  - exact He.
  - vm_compute; reflexivity.
  - by apply (Update_invalid st library 1 dune).
  - rewrite (Create_invalid _ _ _ _ He). vm_compute; reflexivity.
  - intros H. apply (f_equal (λ j, json_get j "title")) in H.
    vm_compute in H. discriminate.
Qed.

(** ** Create, then Retrieve *)

Lemma to_representation_fields pk (v : Book) :
  json_get (to_representation (pk, v)) "id" = Some (JInt pk)
  ∧ json_get (to_representation (pk, v)) "title" = Some (JStr (title v))
  ∧ json_get (to_representation (pk, v)) "author" = Some (JStr (author v))
  ∧ json_get (to_representation (pk, v)) "published_date"
    = Some (JStr (Datetime.isoformat (published_date v))).
Proof. repeat split; reflexivity. Qed.

(** What a valid payload is validated to: the strings stripped of surrounding
    whitespace, the date parsed. *)
Lemma validated_fields s m v :
  BookSerializer_to_internal_value s m = inr v →
  (∀ t, m !! "title" = Some (JStr t) → title v = Py.strip t)
  ∧ (∀ a, m !! "author" = Some (JStr a) → author v = Py.strip a)
  ∧ (∃ d, m !! "published_date" = Some (JStr d)
          ∧ Datetime.parse_date d = Some (published_date v)).
Proof.
  intros (Ht & Ha & Hd)%BookSerializer_valid_inv. split_and!.
  - intros t Hm. rewrite Hm in Ht.
    by apply CharField_valid_inv in Ht as [(? & [= <-] & ->) | (? & [=] & _)].
  - intros a Hm. rewrite Hm in Ha.
    by apply CharField_valid_inv in Ha as [(? & [= <-] & ->) | (? & [=] & _)].
  - by apply DateField_valid_inv.
Qed.

(** C5, as the code has it: for every book payload that passes validation,
    Create responds 201 with an id, and Retrieve with that id yields a record
    whose title, author and published_date are the validated values of the
    payload: the submitted strings stripped of surrounding whitespace and the
    submitted date written YYYY-MM-DD.  They are identical to the submitted
    payload when the payload is in that normal form. *)
Theorem create_then_retrieve
    (st st' : style) (s : Store) (m : gmap string json) (v : Book) :
  run_validation s (JObj m) = inr v →
  ∃ pk created_body body,
    (Create st (JObj m) s).1
      = {| response_data := Some created_body; status_code := 201 |}
    ∧ json_get created_body "id" = Some (JInt pk)
    ∧ (Retrieve st' pk (Create st (JObj m) s).2).1
      = {| response_data := Some body; status_code := 200 |}
    ∧ json_get body "title" = Some (JStr (title v))
    ∧ json_get body "author" = Some (JStr (author v))
    ∧ json_get body "published_date"
      = Some (JStr (Datetime.isoformat (published_date v)))
    ∧ (∀ t, m !! "title" = Some (JStr t) → title v = Py.strip t)
    ∧ (∀ a, m !! "author" = Some (JStr a) → author v = Py.strip a)
    ∧ (∃ d, m !! "published_date" = Some (JStr d)
            ∧ Datetime.parse_date d = Some (published_date v))
    ∧ (normal_form m →
         json_get body "title" = m !! "title"
         ∧ json_get body "author" = m !! "author"
         ∧ json_get body "published_date" = m !! "published_date").
Proof.
  intros Hv. rewrite (Create_valid _ _ _ _ Hv).
  exists (Book_id_seq s + 1), (to_representation (Book_id_seq s + 1, v)),
         (to_representation (Book_id_seq s + 1, v)).
  assert (Book_objects (created s v) !! (Book_id_seq s + 1) = Some v) as Hpk
    by (run; apply lookup_insert_eq).
  rewrite (Retrieve_found _ _ _ _ Hpk).
  destruct (to_representation_fields (Book_id_seq s + 1) v) as (Hid & Ht & Ha & Hd).
  destruct (validated_fields s m v Hv) as (Hvt & Hva & Hvd).
  split_and!; try done.
  intros Hn. destruct (normal_form_valid s m v Hn Hv) as (-> & -> & ->). done.
Qed.

Lemma create_then_retrieve_witness :
  ∃ pk body,
    (Retrieve cbv pk (Create fbv (JObj dune_payload) library).2).1
      = {| response_data := Some body; status_code := 200 |}
    ∧ json_get body "title" = Some (JStr "Dune")
    ∧ json_get body "author" = Some (JStr "Frank Herbert")
    ∧ json_get body "published_date" = Some (JStr "1965-06-01").
Proof.
  assert (run_validation library (JObj dune_payload) = inr dune) as Hv
    by (vm_compute; reflexivity).
  destruct (create_then_retrieve fbv cbv library dune_payload dune Hv)
    as (pk & created_body & body & _ & _ & Hr & Ht & Ha & Hd & _).
  exists pk, body. split_and!; [exact Hr|exact Ht|exact Ha|exact Hd].
Defined.

(** C5, as stated, fails on a title submitted with a leading blank: the
    payload passes validation, Create responds 201 with the id 1, and Retrieve
    of 1 yields the title without the blank, which is not the submitted
    title. *)
Lemma create_then_retrieve_padded_title :
  run_validation empty_store (JObj padded_payload) = inr dune
  ∧ Create fbv (JObj padded_payload) empty_store
    = ({| response_data := Some (to_representation (1, dune)); status_code := 201 |},
       created empty_store dune)
  ∧ Retrieve fbv 1 (created empty_store dune)
    = ({| response_data := Some (to_representation (1, dune)); status_code := 200 |},
       created empty_store dune)
  ∧ json_get (to_representation (1, dune)) "title" = Some (JStr "Dune")
  ∧ padded_payload !! "title" = Some (JStr " Dune")
  ∧ json_get (to_representation (1, dune)) "title" ≠ padded_payload !! "title".
Proof.
  assert (run_validation empty_store (JObj padded_payload) = inr dune) as Hv
    by (vm_compute; reflexivity).
  split_and!.
  - exact Hv.
  - exact (Create_valid fbv empty_store _ _ Hv).
  - apply Retrieve_found. reflexivity.
  - reflexivity.
  - reflexivity.
  - intros H. vm_compute in H. discriminate.
Qed.

(** ** Update *)

(** C7, as the code has it: Update has full-replace semantics.  For every
    existing book and every submitted mapping, either the update succeeds, and
    then the mapping supplies every field of the book and the stored entity is
    the validated mapping (strings stripped of surrounding whitespace, the
    date parsed), with nothing kept from the old entity; or it responds 400
    with the error details, among them every missing field, and the store is
    as before.  On success the stored fields are the submitted ones when the
    mapping is in normal form. *)
Theorem update_full_replace
    (st : style) (s : Store) (pk : Z) (b : Book) (m : gmap string json) :
  Book_objects s !! pk = Some b →
  let response := (Update st pk (JObj m) s).1 in
  let s' := (Update st pk (JObj m) s).2 in
  (status_code response = 200
   ∧ (∀ f, f ∈ writable_fields (Model := Book) → is_Some (m !! f))
   ∧ ∃ v, (∀ s0, to_internal_value s0 m = inr v)
          ∧ Book_objects s' !! pk = Some v
          ∧ response_data response = Some (to_representation (pk, v))
          ∧ (normal_form m →
               m !! "title" = Some (JStr (title v))
               ∧ m !! "author" = Some (JStr (author v))
               ∧ m !! "published_date"
                 = Some (DateField_to_representation (published_date v))))
  ∨ (status_code response = 400
     ∧ s' = s
     ∧ ∃ e, response_data response = Some (errors_json e)
            ∧ ∀ f, f ∈ writable_fields (Model := Book) → m !! f = None →
                   e !! f = Some [required]).
Proof.
  intros Hb. simpl.
  destruct (BookSerializer_to_internal_value s m) as [e|v] eqn:Hv.
  - right. rewrite (Update_invalid _ _ _ b _ e) by done.
    split_and!; [done|done|]. exists e. split; [done|].
    intros f Hf Hm.
    destruct (BookSerializer_required s m f Hf Hm) as (e' & He' & Hreq).
    rewrite Hv in He'. by injection He' as <-.
  - left. rewrite (Update_valid _ _ _ b _ v) by done.
    split_and!; [done| |].
    + intros f Hf. destruct (m !! f) eqn:Hm; [eauto|].
      destruct (BookSerializer_required s m f Hf Hm) as (e' & He' & _).
      rewrite Hv in He'. discriminate.
    + exists v. split_and!; [done| |done|].
      * run. apply lookup_insert_eq.
      * intros Hn. exact (normal_form_valid s m v Hn Hv).
Qed.

Lemma update_full_replace_witness :
  (Update fbv 2 (JObj title_only) library).2 = library
  ∧ Book_objects (Update cbv 2 (JObj dune_payload) library).2 !! 2 = Some dune.
Proof.
  split.
  - destruct (update_full_replace fbv library 2 emma title_only eq_refl)
      as [(_ & Hall & _) | (_ & Hs & _)]; [|exact Hs].
    destruct (Hall "author") as [x Hx]; [|discriminate Hx].
    apply list_elem_of_In. simpl. auto.
  - destruct (update_full_replace cbv library 2 emma dune_payload eq_refl)
      as [(_ & _ & v & Hv & Hk & _) | (Hstatus & _)].
    + rewrite Hk. specialize (Hv library). vm_compute in Hv.
      injection Hv as <-. reflexivity.
    + vm_compute in Hstatus. discriminate Hstatus.
Defined.

(** C7, as stated, fails on a title submitted with a leading blank: the update
    of book 2 succeeds, and the stored title is the title without the blank,
    not the submitted one. *)
Lemma update_padded_title :
  Book_objects library !! 2 = Some emma
  ∧ Update fbv 2 (JObj padded_payload) library
    = ({| response_data := Some (to_representation (2, dune)); status_code := 200 |},
       saved library 2 dune)
  ∧ Book_objects (saved library 2 dune) !! 2 = Some dune
  ∧ padded_payload !! "title" = Some (JStr " Dune")
  ∧ Some (JStr (title dune)) ≠ padded_payload !! "title".
Proof.
  split_and!.
  - reflexivity.
  - apply (Update_valid fbv library 2 emma). { reflexivity. }
    vm_compute; reflexivity.
  - reflexivity.
  - reflexivity.
  - intros H. vm_compute in H. discriminate.
Qed.

(** * Further properties of the handlers *)

(** The validation of a book does not read the store. *)
Lemma Book_run_validation_store s s' payload :
  run_validation (Model := Book) s payload = run_validation s' payload.
Proof. by destruct payload. Qed.

(** Every request leaves the store as it was or performs one write of
    validated data. *)
Lemma serve_writes r request s :
  (serve r request s).2 = s
  ∨ (∃ v, run_validation s (request_data request) = inr v
          ∧ (serve r request s).2 = created s v)
  ∨ (∃ pk b v, Book_objects s !! pk = Some b
               ∧ run_validation s (request_data request) = inr v
               ∧ (serve r request s).2 = saved s pk v)
  ∨ (∃ pk b, Book_objects s !! pk = Some b ∧ (serve r request s).2 = deleted s pk b).
Proof.
  destruct request as [m d].
  destruct r as [|pk| |pk], m; run; auto;
    try (destruct (Book_objects s !! pk) as [b|] eqn:Hb; run; auto);
    try (destruct (run_validation s d) as [e|v] eqn:Hv; run;
         [destruct (bool_decide (e = ∅)); auto|]);
    eauto 10.
  all: try (destruct v; eauto 10).
Qed.

(** ** The sample library *)

Lemma library_ids_below_seq : ids_below_seq library.
Proof.
  intros k [b Hb]. unfold library in *. simpl in *.
  apply lookup_insert_Some in Hb as [[<- _] | [_ Hb]]; [lia|].
  apply lookup_singleton_Some in Hb as [<- _]. lia.
Qed.

Lemma library_referential_integrity : referential_integrity library.
Proof.
  intros k r Hr. unfold library in *. simpl in *.
  apply lookup_insert_Some in Hr as [[<- <-] | [_ Hr]]; [eexists; reflexivity|].
  apply lookup_singleton_Some in Hr as [<- <-]. eexists; reflexivity.
Qed.

(** ** Create and Update that succeed *)

(** X1: a Create that passes validation responds 201 with the new book under
    the next id of the sequence; in a store whose ids do not exceed the
    sequence that id was free, so exactly one book is added, every other book
    and every review stay as they were, and the ids still do not exceed the
    sequence. *)
Theorem Create_adds_one_book (st : style) (s : Store) (payload : json) (v : Book) :
  ids_below_seq s →
  run_validation s payload = inr v →
  let pk := Book_id_seq s + 1 in
  let s' := (Create st payload s).2 in
  (Create st payload s).1
    = {| response_data := Some (to_representation (pk, v)); status_code := 201 |}
  ∧ Book_objects s !! pk = None
  ∧ Book_objects s' !! pk = Some v
  ∧ (∀ k, k ≠ pk → Book_objects s' !! k = Book_objects s !! k)
  ∧ size (Book_objects s') = S (size (Book_objects s))
  ∧ Review_objects s' = Review_objects s
  ∧ ids_below_seq s'.
Proof.
  intros Hs Hv. simpl.
  pose proof (created_fresh s Hs) as Hfresh.
  split_and!.
  - by rewrite (Create_valid _ _ _ _ Hv).
  - done.
  - rewrite (Create_valid _ _ _ _ Hv). run. apply lookup_insert_eq.
  - intros k Hk. rewrite (Create_valid _ _ _ _ Hv). run. by rewrite lookup_insert_ne.
  - rewrite (Create_valid _ _ _ _ Hv). run. by apply map_size_insert_None.
  - by rewrite (Create_valid _ _ _ _ Hv).
  - by apply ids_below_seq_serve.
Qed.

Lemma Create_adds_one_book_witness :
  Book_objects (Create fbv (JObj dune_payload) library).2 !! 3 = Some dune
  ∧ size (Book_objects (Create fbv (JObj dune_payload) library).2) = 3%nat.
Proof.
  assert (run_validation library (JObj dune_payload) = inr dune) as Hv
    by (vm_compute; reflexivity).
  destruct (Create_adds_one_book fbv library _ _ library_ids_below_seq Hv)
    as (_ & _ & Hpk & _ & Hsize & _).
  split; [exact Hpk|exact Hsize].
Defined.

(** X2: an Update that passes validation responds 200 with the representation
    of the validated book under the id of the request, and changes that book
    only: the other books, the set of ids, the reviews and the sequence stay
    as they were. *)
Theorem Update_changes_one_book
    (st : style) (s : Store) (pk : Z) (b : Book) (payload : json) (v : Book) :
  Book_objects s !! pk = Some b →
  run_validation s payload = inr v →
  let s' := (Update st pk payload s).2 in
  (Update st pk payload s).1
    = {| response_data := Some (to_representation (pk, v)); status_code := 200 |}
  ∧ json_get (to_representation (pk, v)) "id" = Some (JInt pk)
  ∧ Book_objects s' !! pk = Some v
  ∧ (∀ k, k ≠ pk → Book_objects s' !! k = Book_objects s !! k)
  ∧ dom (Book_objects s') = dom (Book_objects s)
  ∧ Review_objects s' = Review_objects s
  ∧ Book_id_seq s' = Book_id_seq s.
Proof.
  intros Hb Hv. simpl. rewrite (Update_valid st s pk b _ v) by done. run.
  split_and!; try done.
  - apply lookup_insert_eq.
  - intros k Hk. by rewrite lookup_insert_ne.
  - apply dom_insert_lookup_L. eauto.
Qed.

Lemma Update_changes_one_book_witness :
  Book_objects (Update cbv 2 (JObj dune_payload) library).2 !! 2 = Some dune
  ∧ Book_objects (Update cbv 2 (JObj dune_payload) library).2 !! 1 = Some dune
  ∧ Review_objects (Update cbv 2 (JObj dune_payload) library).2
    = Review_objects library.
Proof.
  assert (run_validation library (JObj dune_payload) = inr dune) as Hv
    by (vm_compute; reflexivity).
  destruct (Update_changes_one_book cbv library 2 emma _ dune eq_refl Hv)
    as (_ & _ & Hpk & Hother & _ & Hreviews & _).
  split_and!; [exact Hpk| |exact Hreviews].
  rewrite Hother by discriminate. reflexivity.
Defined.

(** ** List *)

(** X3: List responds 200 with a sequence that has one entry per stored book:
    its length is the number of books, every stored book is in it with its
    representation, and every entry is the representation of a stored book. *)
Theorem List_shows_every_book (st : style) (s : Store) :
  ∃ l, List st s = ({| response_data := Some (JArr l); status_code := 200 |}, s)
       ∧ List.length l = size (Book_objects s)
       ∧ (∀ pk b, Book_objects s !! pk = Some b → to_representation (pk, b) ∈ l)
       ∧ (∀ j, j ∈ l →
            ∃ pk b, Book_objects s !! pk = Some b ∧ j = to_representation (pk, b)).
Proof.
  rewrite List_eq. eexists. split; [reflexivity|]. split_and!.
  - by rewrite length_fmap, length_map_to_list.
  - intros pk b Hb. apply list_elem_of_fmap. exists (pk, b).
    split; [done|]. by apply elem_of_map_to_list.
  - intros j ([pk b] & -> & Hj)%list_elem_of_fmap.
    apply elem_of_map_to_list in Hj. eauto.
Qed.

(** ** Methods and status codes *)






(** ** Operations in sequence *)

(** X7: after an Update that succeeds, Retrieve of the same id answers what
    the Update answered, and the same Update again gives the same response and
    the same store: Update is idempotent.  This holds across the two handler
    styles. *)
Theorem Update_then_Retrieve
    (st st' st'' : style) (s : Store) (pk : Z) (b : Book) (payload : json) (v : Book) :
  Book_objects s !! pk = Some b →
  run_validation s payload = inr v →
  let updated := Update st pk payload s in
  Retrieve st' pk updated.2 = (updated.1, updated.2)
  ∧ Update st'' pk payload updated.2 = updated.
Proof.
  intros Hb Hv. simpl. rewrite (Update_valid st s pk b _ v) by done. simpl.
  assert (Book_objects (saved s pk v) !! pk = Some v) as Hk
    by (run; apply lookup_insert_eq).
  split.
  - by apply Retrieve_found.
  - rewrite (Update_valid _ _ _ v _ v);
      [|done|by rewrite (Book_run_validation_store _ s)].
    f_equal. run. f_equal. apply insert_insert_eq.
Qed.

Lemma Update_then_Retrieve_witness :
  Retrieve fbv 2 (Update cbv 2 (JObj dune_payload) library).2
  = ((Update cbv 2 (JObj dune_payload) library).1,
     (Update cbv 2 (JObj dune_payload) library).2).
Proof.
  assert (run_validation library (JObj dune_payload) = inr dune) as Hv
    by (vm_compute; reflexivity).
  exact (proj1 (Update_then_Retrieve cbv fbv fbv library 2 emma _ dune eq_refl Hv)).
Defined.

(** X8: after the Delete of a book, its id does not resolve any more: a second
    Delete, an Update and a Retrieve of that id each respond 404 and leave the
    store as the first Delete left it. *)
Theorem Delete_twice
    (st st' : style) (s : Store) (pk : Z) (b : Book) (payload : json) :
  Book_objects s !! pk = Some b →
  let s' := (Delete st pk s).2 in
  Delete st' pk s' = (not_found st', s')
  ∧ Update st' pk payload s' = (not_found st', s')
  ∧ Retrieve st' pk s' = (not_found st', s').
Proof.
  intros Hb. simpl. rewrite (Delete_found st s pk b) by done. simpl.
  assert (Book_objects (deleted s pk b) !! pk = None) as Hk
    by (run; apply lookup_delete_eq).
  by rewrite Delete_missing, Update_missing, Retrieve_missing.
Qed.

Lemma Delete_twice_witness :
  Delete cbv 1 (Delete fbv 1 library).2 = (not_found cbv, (Delete fbv 1 library).2).
Proof.
  exact (proj1 (Delete_twice fbv cbv library 1 dune JNull eq_refl)).
Defined.

(** ** The error details of a failed Update *)

Lemma run_validators_detail {A} (vs : list (A → option ErrorDetail)) (x : A) d :
  run_validators vs x = Invalid d → d ≠ [].
Proof.
  unfold run_validators. destruct (omap _ _); [discriminate|]. by intros [= <-].
Qed.

Lemma CharField_invalid_detail max_len data d :
  CharField_run_validation max_len data = Invalid d → d ≠ [].
Proof.
  unfold CharField_run_validation. destruct (is_blank data); [by intros [= <-]|].
  destruct data as [[| | z | t | |]|]; cbv [mbind validation_bind]; simpl;
    try (by intros [= <-]); apply run_validators_detail.
Qed.

Lemma DateField_invalid_detail data d :
  DateField_run_validation data = Invalid d → d ≠ [].
Proof.
  destruct data as [[| | z | t | |]|];
    cbv [DateField_run_validation mbind validation_bind]; simpl;
    try (by intros [= <-]).
  destruct (Datetime.parse_date t); [discriminate|by intros [= <-]].
Qed.

Lemma BookSerializer_errors s m e :
  BookSerializer_to_internal_value s m = inl e →
  e ≠ ∅
  ∧ (∀ f d, e !! f = Some d → f ∈ writable_fields (Model := Book) ∧ d ≠ []).
Proof.
  unfold BookSerializer_to_internal_value.
  destruct (CharField_run_validation _ (m !! "title")) as [t|dt] eqn:Ht,
           (CharField_run_validation _ (m !! "author")) as [a|da] eqn:Ha,
           (DateField_run_validation _) as [d|dd] eqn:Hd; try discriminate;
    intros [= <-]; simpl;
    try apply CharField_invalid_detail in Ht;
    try apply CharField_invalid_detail in Ha;
    try apply DateField_invalid_detail in Hd;
    (split; [apply insert_non_empty|]);
    intros f d' Hf;
    repeat (apply lookup_insert_Some in Hf as [[<- <-]|[_ Hf]];
            [split; [in_list|done]|]);
    by rewrite lookup_empty in Hf.
Qed.

(** X9: an Update of an existing book with a payload that fails validation
    responds 400 and changes nothing, and its body is a usable report: it
    names at least one field, it names only the three writable fields of the
    book (or [non_field_errors] when the payload is no mapping), and every
    field it names comes with at least one message. *)
Theorem Update_invalid_names_fields
    (st : style) (s : Store) (pk : Z) (b : Book) (payload : json)
    (e : gmap string (list ErrorDetail)) :
  Book_objects s !! pk = Some b →
  run_validation (Model := Book) s payload = inl e →
  Update st pk payload s
    = ({| response_data := Some (errors_json e); status_code := 400 |}, s)
  ∧ e ≠ ∅
  ∧ (∀ f, is_Some (json_get (errors_json e) f) →
          f ∈ NON_FIELD_ERRORS_KEY :: writable_fields (Model := Book)
          ∧ ∃ d, d ≠ []
                 ∧ json_get (errors_json e) f = Some (JArr (JStr ∘ message <$> d))).
Proof.
  intros Hb He. split; [by apply (Update_invalid st s pk b)|].
  assert (e ≠ ∅
          ∧ ∀ f d, e !! f = Some d →
                   f ∈ NON_FIELD_ERRORS_KEY :: writable_fields (Model := Book)
                   ∧ d ≠ []) as [Hne Hkeys].
  { destruct payload as [| | | | |m]; simpl in He;
      try (injection He as <-; split; [apply insert_non_empty|];
           intros f d [<- <-]%lookup_singleton_Some; split; [in_list|done]).
    apply BookSerializer_errors in He as [Hne Hkeys]. split; [done|].
    intros f d [Hf Hd]%Hkeys. split; [by apply list_elem_of_further|done]. }
  split; [done|]. intros f. unfold errors_json, json_get.
  rewrite lookup_fmap. destruct (e !! f) as [d|] eqn:Hf; simpl; [|by intros [? ?]].
  intros _. destruct (Hkeys f d Hf) as [Hin Hd]. eauto.
Qed.

Lemma Update_invalid_names_fields_witness :
  Update fbv 1 (JObj title_only) library
  = ({| response_data :=
          Some (errors_json {[ "author" := [required]; "published_date" := [required] ]});
        status_code := 400 |}, library).
Proof.
  assert (run_validation (Model := Book) library (JObj title_only)
          = inl {[ "author" := [required]; "published_date" := [required] ]}) as He
    by (vm_compute; reflexivity).
  exact (proj1 (Update_invalid_names_fields fbv library 1 dune _ _ eq_refl He)).
Defined.

(** ** Strings: [strip] and [str] *)

Lemma string_app_nil_l (t : string) : "" +:+ t = t.
Proof. reflexivity. Qed.

Lemma string_app_cons c (s t : string) : String c s +:+ t = String c (s +:+ t).
Proof. reflexivity. Qed.

Lemma string_app_assoc (s t u : string) : (s +:+ t) +:+ u = s +:+ (t +:+ u).
Proof. induction s as [|c s IH]; [done|]. by rewrite !string_app_cons, IH. Qed.

Lemma string_rev_app (s t : string) : String.rev_app s t = String.rev s +:+ t.
Proof.
  unfold String.rev. revert t. induction s as [|c s IH]; intros t; simpl; [done|].
  rewrite IH, (IH (String c "")), string_app_assoc. done.
Qed.

Lemma string_rev_cons c s : String.rev (String c s) = String.rev s +:+ String c "".
Proof. unfold String.rev at 1. simpl. apply string_rev_app. Qed.

Lemma string_rev_snoc s c : String.rev (s +:+ String c "") = String c (String.rev s).
Proof.
  induction s as [|a s IH]; [done|].
  by rewrite string_app_cons, !string_rev_cons, IH.
Qed.

Lemma string_rev_involutive s : String.rev (String.rev s) = s.
Proof.
  induction s as [|c s IH]; [done|].
  by rewrite string_rev_cons, string_rev_snoc, IH.
Qed.

Lemma lstrip_idemp s : Py.lstrip (Py.lstrip s) = Py.lstrip s.
Proof.
  induction s as [|c s IH]; simpl; [done|].
  destruct (Py.isspace c) eqn:Hc; [done|]. simpl. by rewrite Hc.
Qed.

Lemma lstrip_snoc s c :
  Py.isspace c = false →
  Py.lstrip (s +:+ String c "") = Py.lstrip s +:+ String c "".
Proof.
  intros Hc. induction s as [|a s IH];
    [by rewrite string_app_nil_l; simpl; rewrite Hc|].
  rewrite string_app_cons. simpl. by destruct (Py.isspace a).
Qed.

Lemma rstrip_cons c s :
  Py.isspace c = false → Py.rstrip (String c s) = String c (Py.rstrip s).
Proof.
  intros Hc. unfold Py.rstrip.
  by rewrite string_rev_cons, lstrip_snoc, string_rev_snoc.
Qed.

Lemma rstrip_idemp s : Py.rstrip (Py.rstrip s) = Py.rstrip s.
Proof. unfold Py.rstrip. by rewrite string_rev_involutive, lstrip_idemp. Qed.

Lemma lstrip_head s :
  Py.lstrip s = "" ∨ ∃ c s', Py.lstrip s = String c s' ∧ Py.isspace c = false.
Proof.
  induction s as [|c s IH]; simpl; [auto|].
  destruct (Py.isspace c) eqn:Hc; eauto.
Qed.

(** Stripping twice is stripping once. *)
Lemma strip_idemp s : Py.strip (Py.strip s) = Py.strip s.
Proof.
  unfold Py.strip.
  destruct (lstrip_head s) as [-> | (c & s' & -> & Hc)]; [done|].
  rewrite (rstrip_cons _ _ Hc). simpl. rewrite Hc.
  rewrite (rstrip_cons _ _ Hc). by rewrite rstrip_idemp.
Qed.

Lemma strip_headed c s : Py.isspace c = false → Py.strip (String c s) ≠ "".
Proof.
  intros Hc. unfold Py.strip. simpl. rewrite Hc. by rewrite (rstrip_cons _ _ Hc).
Qed.

Lemma pretty_N_char_nonspace x : Py.isspace (pretty_N_char x) = false.
Proof. unfold pretty_N_char. by repeat case_match. Qed.

Lemma pretty_N_go_headed x s :
  (∃ c s', s = String c s' ∧ Py.isspace c = false) →
  ∃ c s', pretty_N_go x s = String c s' ∧ Py.isspace c = false.
Proof.
  revert s. induction (N.lt_wf_0 x) as [x _ IH]; intros s Hs.
  assert (x = 0 ∨ 0 < x)%N as [->|?] by lia.
  - by rewrite pretty_N_go_0.
  - rewrite pretty_N_go_step by done. apply IH.
    { by apply N.div_lt. }
    eauto using pretty_N_char_nonspace.
Qed.

(** [str] of an integer begins with a sign or a digit. *)
Lemma str_of_int_headed z :
  ∃ c s', Py.str_of_int z = String c s' ∧ Py.isspace c = false.
Proof.
  assert (∀ p, ∃ c s', pretty (N.pos p) = String c s' ∧ Py.isspace c = false) as Hp.
  { intros p. unfold pretty, pretty_N. rewrite decide_False by done.
    rewrite pretty_N_go_step by lia. apply pretty_N_go_headed.
    eauto using pretty_N_char_nonspace. }
  unfold Py.str_of_int, pretty, pretty_Z. destruct z as [|p|p].
  - by exists "0"%char, "".
  - apply Hp.
  - by exists "-"%char, (pretty p).
Qed.

Lemma digit_val_pretty_N_char x :
  (x < 10)%N → Py.digit_val (pretty_N_char x) = Some (Z.of_N x).
Proof.
  intros Hx. destruct x as [|p]; [reflexivity|].
  repeat (destruct p as [p|p|]; try reflexivity; try lia).
Qed.

Lemma digits_go_pretty_N_go x s :
  ∃ k : nat, ∀ acc,
    Py.digits_go acc (pretty_N_go x s)
    = Py.digits_go (acc * 10 ^ Z.of_nat k + Z.of_N x) s.
Proof.
  revert s. induction (N.lt_wf_0 x) as [x _ IH]; intros s.
  assert (x = 0 ∨ 0 < x)%N as [->|Hx] by lia.
  - exists 0%nat. intros acc. rewrite pretty_N_go_0. f_equal. simpl. lia.
  - rewrite pretty_N_go_step by done.
    destruct (IH (x `div` 10)%N (N.div_lt x 10 Hx eq_refl)
                 (String (pretty_N_char (x `mod` 10)) s)) as [k Hk].
    exists (S k). intros acc. rewrite Hk. simpl Py.digits_go.
    rewrite digit_val_pretty_N_char by (by apply N.mod_lt).
    f_equal. rewrite Nat2Z.inj_succ, Z.pow_succ_r by lia.
    rewrite N2Z.inj_div, N2Z.inj_mod. simpl Z.of_N.
    pose proof (Z.div_mod (Z.of_N x) 10). lia.
Qed.

(** [int(str(z))] is [z], for a natural number. *)
Lemma digits_str_of_int z : 0 ≤ z → Py.digits (Py.str_of_int z) = Some z.
Proof.
  intros Hz. destruct (str_of_int_headed z) as (c & s' & Hs & _).
  unfold Py.digits. rewrite Hs. rewrite <- Hs. clear Hs.
  unfold Py.str_of_int, pretty, pretty_Z. destruct z as [|p|p]; [done| |lia].
  unfold pretty, pretty_positive, pretty, pretty_N. rewrite decide_False by done.
  destruct (digits_go_pretty_N_go (N.pos p) "") as [k Hk]. rewrite Hk. done.
Qed.

(** ** What the character fields accept *)

Lemma run_validators_value {A} (vs : list (A → option ErrorDetail)) (x y : A) :
  run_validators vs x = Valid y → y = x ∧ ∀ v, v ∈ vs → v x = None.
Proof.
  unfold run_validators. destruct (omap _ _) eqn:Ho; [|discriminate].
  intros [= <-]. split; [done|]. intros v Hv.
  destruct (v x) as [e|] eqn:He; [|done].
  assert (e ∈ omap (λ v, v x) vs) as Hin by (apply list_elem_of_omap; eauto).
  rewrite Ho in Hin. by apply elem_of_nil in Hin.
Qed.

Lemma CharField_valid_text max_len d v :
  CharField_run_validation max_len d = Valid v →
  Py.strip v = v ∧ v ≠ "" ∧ Py.contains "000" v = false
  ∧ ∀ n, max_len = Some n → Py.len v ≤ n.
Proof.
  unfold CharField_run_validation.
  destruct (is_blank d) eqn:Hblank; [discriminate|].
  assert (∀ t, Py.strip t ≠ "" →
            run_validators (CharField_validators max_len) (Py.strip t) = Valid v →
            Py.strip v = v ∧ v ≠ "" ∧ Py.contains "000" v = false
            ∧ ∀ n, max_len = Some n → Py.len v ≤ n) as Hgen.
  { intros t Ht (-> & Hvs)%run_validators_value.
    split_and!; [apply strip_idemp|done|..].
    - specialize (Hvs ProhibitNullCharactersValidator).
      unfold ProhibitNullCharactersValidator in Hvs.
      destruct (Py.contains _ _); [|done].
      discriminate Hvs. destruct max_len; simpl; in_list.
    - intros n ->. specialize (Hvs (MaxLengthValidator n)).
      unfold MaxLengthValidator in Hvs.
      destruct (n <? Py.len (Py.strip t)) eqn:Hlen; [|lia].
      discriminate Hvs. simpl. in_list. }
  destruct d as [[| | z | t | |]|]; cbv [mbind validation_bind]; simpl;
    try discriminate.
  - apply Hgen. destruct (str_of_int_headed z) as (c & s' & -> & Hc).
    by apply strip_headed.
  - apply Hgen. simpl in Hblank. by apply bool_decide_eq_false in Hblank.
Qed.

Lemma CharField_valid_well_formed n d v :
  CharField_run_validation (Some n) d = Valid v → well_formed_text n v.
Proof.
  intros (? & ? & ? & Hlen)%CharField_valid_text.
  split_and!; [done|done|by apply Hlen|done].
Qed.

Lemma text_accepted n t :
  well_formed_text n (Py.strip t) →
  CharField_run_validation (Some n) (Some (JStr t)) = Valid (Py.strip t).
Proof.
  intros (_ & Hne & Hlen & Hnul). unfold CharField_run_validation. simpl.
  rewrite bool_decide_eq_false_2 by done.
  cbv [mbind validation_bind]. simpl.
  unfold run_validators. simpl.
  unfold MaxLengthValidator, ProhibitNullCharactersValidator.
  rewrite Hnul. replace (n <? Py.len (Py.strip t)) with false by lia. done.
Qed.

Lemma parse_date_valid t d : Datetime.parse_date t = Some d → Datetime.valid_date d.
Proof.
  unfold Datetime.parse_date. repeat case_match; try discriminate.
  intros Hd. apply bind_Some in Hd as (y & _ & Hd).
  apply bind_Some in Hd as (m & _ & Hd).
  apply bind_Some in Hd as (dd & _ & Hd).
  pose proof (make_date_inv _ _ _ _ Hd) as [-> _]. exact Hd.
Qed.

Lemma validated_book_well_formed s m v :
  BookSerializer_to_internal_value s m = inr v → well_formed_book v.
Proof.
  intros (Ht & Ha & Hd)%BookSerializer_valid_inv.
  apply CharField_valid_well_formed in Ht, Ha.
  apply DateField_valid_inv in Hd as (t & _ & Hd%parse_date_valid).
  done.
Qed.

Lemma run_validation_well_formed s payload v :
  run_validation s payload = inr v → well_formed_book v.
Proof.
  destruct payload; try discriminate. apply validated_book_well_formed.
Qed.

Lemma well_formed_book_valid s pk b :
  well_formed_book b →
  BookSerializer_to_internal_value s (representation_payload pk b) = inr b.
Proof.
  intros ((Hts & Ht) & (Has & Ha) & Hd). unfold BookSerializer_to_internal_value.
  replace (representation_payload pk b !! "title") with (Some (JStr (title b)))
    by reflexivity.
  replace (representation_payload pk b !! "author") with (Some (JStr (author b)))
    by reflexivity.
  replace (representation_payload pk b !! "published_date")
    with (Some (JStr (Datetime.isoformat (published_date b)))) by reflexivity.
  rewrite !text_accepted by (rewrite ?Hts, ?Has; done).
  rewrite Hts, Has.
  cbv [DateField_run_validation mbind validation_bind]. simpl.
  rewrite parse_date_isoformat by done. by destruct b.
Qed.

Lemma dune_well_formed : well_formed_book dune.
Proof.
  apply (validated_book_well_formed library dune_payload). vm_compute; reflexivity.
Qed.

Lemma emma_well_formed : well_formed_book emma.
Proof.
  apply (validated_book_well_formed library
           {[ "title" := JStr "Emma"; "author" := JStr "Jane Austen";
              "published_date" := JStr "1815-12-23" ]}).
  vm_compute; reflexivity.
Qed.

Lemma library_well_formed : all_books_well_formed library.
Proof.
  intros k b Hb. unfold library in *. simpl in *.
  apply lookup_insert_Some in Hb as [[_ <-] | [_ Hb]]; [apply dune_well_formed|].
  apply lookup_singleton_Some in Hb as [_ <-]. apply emma_well_formed.
Qed.



(** ** Stored books are well formed *)

(** X11: the handlers store validated data only.  From a store in which every
    book is well formed (title and author without surrounding whitespace, not
    empty, of at most 255 characters, without null character, and a date of
    the calendar), every store that a sequence of requests reaches is such a
    store again. *)
Theorem books_stay_well_formed (s0 s : Store) :
  all_books_well_formed s0 → reachable s0 s → all_books_well_formed s.
Proof.
  intros H0 Hreach. induction Hreach as [|s r request _ IH]; [done|].
  intros k b.
  destruct (serve_writes r request s)
    as [-> | [(v & Hv & ->) | [(pk & b0 & v & _ & Hv & ->) | (pk & b0 & _ & ->)]]];
    [apply IH|..]; run.
  - apply run_validation_well_formed in Hv.
    destruct (decide (Book_id_seq s + 1 = k)) as [<-|].
    + rewrite lookup_insert_eq. by intros [= <-].
    + rewrite lookup_insert_ne by done. apply IH.
  - apply run_validation_well_formed in Hv.
    destruct (decide (pk = k)) as [<-|].
    + rewrite lookup_insert_eq. by intros [= <-].
    + rewrite lookup_insert_ne by done. apply IH.
  - intros Hk. apply lookup_delete_Some in Hk as [_ Hk]. by apply IH in Hk.
Qed.

Lemma books_stay_well_formed_witness :
  all_books_well_formed
    (Update fbv 2 (JObj padded_payload) (Create cbv (JObj dune_payload) library).2).2.
Proof.
  apply (books_stay_well_formed library).
  - exact library_well_formed.
  - apply reachable_step, reachable_step, reachable_refl.
Defined.

(** X12: what Retrieve returns can be sent back.  For a stored book that is
    well formed, Retrieve responds 200 with a mapping, and an Update of the
    same id with that mapping responds 200 with the same mapping and leaves
    the store exactly as it was; the read-only [id] in the mapping is
    ignored. *)
Theorem put_back_what_get_returned
    (st st' : style) (s : Store) (pk : Z) (b : Book) :
  Book_objects s !! pk = Some b →
  well_formed_book b →
  ∃ body,
    Retrieve st pk s
      = ({| response_data := Some (JObj body); status_code := 200 |}, s)
    ∧ Update st' pk (JObj body) s
      = ({| response_data := Some (JObj body); status_code := 200 |}, s).
Proof.
  intros Hb Hwf. exists (representation_payload pk b).
  split; [by apply Retrieve_found|].
  rewrite (Update_valid _ _ _ b _ b); [|done|by apply well_formed_book_valid].
  f_equal. run. destruct s as [books reviews seq]. simpl in *.
  f_equal. by apply insert_id.
Qed.

Lemma put_back_what_get_returned_witness :
  ∃ body,
    Retrieve fbv 1 library
      = ({| response_data := Some (JObj body); status_code := 200 |}, library)
    ∧ Update cbv 1 (JObj body) library
      = ({| response_data := Some (JObj body); status_code := 200 |}, library).
Proof.
  exact (put_back_what_get_returned fbv cbv library 1 dune eq_refl dune_well_formed).
Defined.

(** ** Reviews *)

Section reviews.

Local Arguments Py.int_of_str : simpl never.

Lemma PrimaryKeyRelatedField_valid s d pk :
  PrimaryKeyRelatedField_run_validation s d = Valid pk →
  is_Some (Book_objects s !! pk).
Proof.
  unfold PrimaryKeyRelatedField_run_validation.
  destruct d as [[| | z | t | |]|]; cbv [mbind validation_bind]; simpl;
    try discriminate.
  - case_decide; [|discriminate]. by intros [= <-].
  - destruct t as [|a t]; simpl; [discriminate|].
    destruct (Py.int_of_str (String a t)); [|discriminate].
    case_decide; [|discriminate]. by intros [= <-].
Qed.

End reviews.

Lemma rating_valid d n :
  IntegerField_run_validation Review_rating_validators d = Valid n → 1 ≤ n ≤ 5.
Proof.
  unfold IntegerField_run_validation. cbv [mbind validation_bind].
  destruct (validate_empty_values d); [|discriminate].
  destruct (IntegerField_to_internal_value _) as [z|]; [|discriminate].
  intros (-> & Hvs)%run_validators_value.
  cbv [IntegerField_validators Review_rating_validators model_max_value
       model_min_value] in Hvs. simpl in Hvs.
  pose proof (Hvs _ (list_elem_of_here _ _)) as Hmax.
  pose proof (Hvs _ (list_elem_of_further _ _ _ (list_elem_of_here _ _))) as Hmin.
  simpl in Hmax, Hmin.
  destruct (5 <? z) eqn:?, (z <? 1) eqn:?; try discriminate. lia.
Qed.

(** X13: a review that [ReviewSerializer] validates satisfies the declarations
    of the model, whatever the form of the payload (numbers or numeric
    strings): its book is a book of the store, its rating is between 1 and 5,
    its reviewer is a non-empty text of at most 100 characters, and its text
    is not empty; both texts are stripped. *)
Theorem validated_review (s : Store) (m : gmap string json) (v : Review) :
  to_internal_value s m = inr v →
  is_Some (Book_objects s !! book v)
  ∧ 1 ≤ rating v ≤ 5
  ∧ well_formed_text 100 (reviewer v)
  ∧ Py.strip (text v) = text v ∧ text v ≠ "".
Proof.
  simpl. unfold ReviewSerializer_to_internal_value.
  destruct (PrimaryKeyRelatedField_run_validation _ _) eqn:Hb; [|discriminate].
  destruct (CharField_run_validation _ (m !! "reviewer")) eqn:Hr;
    [|destruct (CharField_run_validation _ (m !! "text")),
               (IntegerField_run_validation _ _); discriminate].
  destruct (CharField_run_validation _ (m !! "text")) eqn:Ht;
    [|destruct (IntegerField_run_validation _ _); discriminate].
  destruct (IntegerField_run_validation _ _) eqn:Hn; [|discriminate].
  intros [= <-]. simpl.
  apply PrimaryKeyRelatedField_valid in Hb. apply rating_valid in Hn.
  apply CharField_valid_well_formed in Hr.
  apply CharField_valid_text in Ht as (? & ? & _).
  done.
Qed.

Lemma validated_review_witness :
  ∃ v, to_internal_value library (review_payload 3) = inr v
       ∧ is_Some (Book_objects library !! book v) ∧ 1 ≤ rating v ≤ 5.
Proof.
  assert (to_internal_value library (review_payload 3)
          = inr {| book := 1; reviewer := "Alice"; text := "Great"; rating := 3;
                   created_at := "" |}) as Hv by (vm_compute; reflexivity).
  eexists. split; [exact Hv|].
  destruct (validated_review _ _ _ Hv) as (Hb & Hr & _).
  split; [exact Hb|exact Hr].
Defined.

(** X14: [Review.__str__] reads the title of the book of the review.  In a
    store with referential integrity it returns, for every stored review, the
    reviewer, a dash and the title of that book, and it changes nothing. *)
Theorem Review_str_returns (s : Store) (pk : Z) (r : Review) :
  referential_integrity s →
  Review_objects s !! pk = Some r →
  ∃ b, Book_objects s !! book r = Some b
       ∧ Review_str r s = (Return (reviewer r +:+ " - " +:+ Book_str b), s).
Proof.
  intros Hs Hr. destruct (Hs pk r Hr) as [b Hb]. exists b. split; [done|].
  unfold Review_str. run. by rewrite Hb.
Qed.

Lemma Review_str_returns_witness :
  ∃ b, Book_objects library !! 1 = Some b
       ∧ Review_str great library = (Return ("Alice" +:+ " - " +:+ Book_str b), library).
Proof.
  exact (Review_str_returns library 1 great library_referential_integrity eq_refl).
Defined.

(** ** The listing of the reviews *)

Lemma Review_values_row row :
  filter (λ kv : string * json, kv.1 ∈ ["book"; "reviewer"; "text"; "rating"])
    (Review_row row)
  = {[ "book" := JInt (book row.2); "reviewer" := JStr (reviewer row.2);
       "text" := JStr (text row.2); "rating" := JInt (rating row.2) ]}.
Proof. destruct row as [pk [b r t n c]]. vm_compute. reflexivity. Qed.

Lemma Pure_Json_Model_eq request s :
  django_view Pure_Json_Model request s
  = ({| response_data :=
          Some (JObj {[ "review" :=
                  JArr (values ["book"; "reviewer"; "text"; "rating"]
                          (map_to_list (Review_objects s))) ]});
        status_code := 200 |}, s).
Proof. reflexivity. Qed.

Lemma values_entries s j :
  j ∈ values ["book"; "reviewer"; "text"; "rating"] (map_to_list (Review_objects s))
  ↔ ∃ pk r, Review_objects s !! pk = Some r
            ∧ j = JObj {[ "book" := JInt (book r);
                          "reviewer" := JStr (reviewer r);
                          "text" := JStr (text r);
                          "rating" := JInt (rating r) ]}.
Proof.
  unfold values. rewrite list_elem_of_fmap. split.
  - intros ([pk r] & -> & Hin). rewrite Review_values_row.
    apply elem_of_map_to_list in Hin. eauto.
  - intros (pk & r & Hr & ->). exists (pk, r).
    rewrite Review_values_row. split; [done|]. by apply elem_of_map_to_list.
Qed.

(** X15: [Pure_Json_Model] does not look at the request: whatever request it
    is called with, it answers 200 with one entry per stored review under the
    key [review]; an entry
    holds the book id, the reviewer, the text and the rating of the review,
    and neither its id nor its timestamp.  The store is unchanged. *)
Theorem review_listing (request : Request) (s : Store) :
  ∃ l,
    django_view Pure_Json_Model request s
      = ({| response_data := Some (JObj {[ "review" := JArr l ]});
            status_code := 200 |}, s)
    ∧ List.length l = size (Review_objects s)
    ∧ (∀ j, j ∈ l ↔
         ∃ pk r, Review_objects s !! pk = Some r
                 ∧ j = JObj {[ "book" := JInt (book r);
                               "reviewer" := JStr (reviewer r);
                               "text" := JStr (text r);
                               "rating" := JInt (rating r) ]}).
Proof.
  eexists. split; [apply Pure_Json_Model_eq|]. split.
  - unfold values. by rewrite length_fmap, length_map_to_list.
  - apply values_entries.
Qed.

(** X16: after the Delete of a book, the listing of the reviews has no entry
    of that book. *)
Theorem review_listing_after_Delete
    (st : style) (s : Store) (pk : Z) (b : Book) (request : Request) (l : list json) :
  Book_objects s !! pk = Some b →
  response_data (django_view Pure_Json_Model request (Delete st pk s).2).1
    = Some (JObj {[ "review" := JArr l ]}) →
  ∀ j, j ∈ l → json_get j "book" ≠ Some (JInt pk).
Proof.
  intros Hb Hl j Hj. rewrite Pure_Json_Model_eq in Hl.
  apply (f_equal (λ o, match o with
                       | Some j => json_get j "review"
                       | None => None
                       end)) in Hl.
  cbv beta iota delta [json_get response_data fst] in Hl.
  rewrite !lookup_singleton_eq in Hl. injection Hl as <-.
  apply values_entries in Hj as (k & r & Hr & ->).
  rewrite (Delete_found st s pk b Hb) in Hr. run.
  apply map_lookup_filter_Some in Hr as [_ Hne]. simpl in Hne.
  change (Some (JInt (book r)) ≠ Some (JInt pk)). congruence.
Qed.

Lemma review_listing_after_Delete_witness :
  json_get (JObj {[ "book" := JInt 2; "reviewer" := JStr "Bob";
                    "text" := JStr "Witty"; "rating" := JInt 4 ]}) "book"
  ≠ Some (JInt 1).
Proof.
  apply (review_listing_after_Delete fbv library 1 dune
           {| method := GET; request_data := JNull |}
           [JObj {[ "book" := JInt 2; "reviewer" := JStr "Bob";
                    "text" := JStr "Witty"; "rating" := JInt 4 ]}]).
  - reflexivity.
  - vm_compute. reflexivity.
  - apply list_elem_of_here.
Defined.

(** ** The resolution of a path *)

Lemma digits_go_nonneg s acc z : 0 ≤ acc → Py.digits_go acc s = Some z → 0 ≤ z.
Proof.
  revert acc. induction s as [|c s IH]; intros acc Hacc; simpl.
  - by intros [= <-].
  - destruct (Py.digit_val c) as [d|] eqn:Hd; [|discriminate].
    apply IH. unfold Py.digit_val in Hd.
    destruct (_ && _) eqn:Hc; [|discriminate]. injection Hd as <-.
    apply andb_prop in Hc as [?%Z.leb_le _]. lia.
Qed.

Lemma IntConverter_nonneg segment pk : IntConverter segment = Some pk → 0 ≤ pk.
Proof.
  unfold IntConverter, Py.digits. destruct segment; [discriminate|].
  by apply digits_go_nonneg.
Qed.

Lemma strip_prefix_Some p s r : strip_prefix p s = Some r → s = p +:+ r.
Proof.
  revert s. induction p as [|a p IH]; intros s; simpl.
  - by intros [= <-].
  - destruct s as [|b s]; [discriminate|].
    destruct (Ascii.eqb a b) eqn:Hab; [|discriminate].
    apply Ascii.eqb_eq in Hab as <-. intros ->%IH. done.
Qed.

Lemma path_int_Some prefix view p x :
  path_int prefix view p = Some x →
  ∃ segment pk, p = prefix +:+ segment ∧ IntConverter segment = Some pk
                ∧ 0 ≤ pk ∧ x = view pk.
Proof.
  unfold path_int. intros Hx.
  apply bind_Some in Hx as (segment & Hs%strip_prefix_Some & Hx).
  apply bind_Some in Hx as (pk & Hpk & [= <-]).
  eauto 10 using IntConverter_nonneg.
Qed.

Lemma path_Some route view p x : path route view p = Some x → x = view.
Proof. unfold path. case_decide; [|discriminate]. by intros [= <-]. Qed.

Lemma resolve_Some p x :
  resolve p = Some x → ∃ pattern, pattern ∈ urlpatterns_list ∧ pattern p = Some x.
Proof.
  unfold resolve. intros Hx.
  assert (x ∈ omap (λ pattern, pattern p) urlpatterns_list) as Hin.
  { destruct (omap _ _); [discriminate|]. injection Hx as ->. apply list_elem_of_here. }
  apply list_elem_of_omap in Hin as (pattern & ? & ?). eauto.
Qed.

(** X17: a handler of an item only ever receives a natural number as [pk].
    When a path resolves to one of the item routes with the id [pk], the path
    is the prefix of that route followed by a segment of digits that reads
    [pk], and [pk] is not negative; a segment that is no number resolves to
    no item route. *)
Theorem resolved_pk_nonneg (p : string) (pk : Z) :
  resolve p ∈ [ Some (to_rest (rest_fbv_pk pk)); Some (to_rest (rest_cbv_pk pk));
                Some (to_mixins_pk pk); Some (to_generics_pk pk) ] →
  0 ≤ pk
  ∧ ∃ prefix segment,
      prefix ∈ ["rest/fbv/"; "rest/cbv/"; "rest/mixins/"; "rest/generics/"]
      ∧ p = prefix +:+ segment ∧ IntConverter segment = Some pk.
Proof.
  intros Hin.
  assert (∃ x, resolve p = Some x
               ∧ x ∈ [to_rest (rest_fbv_pk pk); to_rest (rest_cbv_pk pk);
                      to_mixins_pk pk; to_generics_pk pk]) as (x & Hx & Hform).
  { repeat (apply elem_of_cons in Hin as [Hin|Hin];
            [eexists; split; [exact Hin|in_list]|]).
    by apply elem_of_nil in Hin. }
  clear Hin. apply resolve_Some in Hx as (pattern & Hpat & Hx).
  unfold urlpatterns_list in Hpat.
  repeat (apply elem_of_cons in Hpat as [-> | Hpat]);
    [..|by apply elem_of_nil in Hpat];
    try (apply path_Some in Hx as ->;
         repeat (apply elem_of_cons in Hform as [Hform|Hform]; [discriminate|]);
         by apply elem_of_nil in Hform);
    try (apply path_int_Some in Hx as (seg & k & -> & Hk & Hnn & ->);
         assert (k = pk) as ->
           by (repeat (apply elem_of_cons in Hform as [Hform|Hform]; [congruence|]);
               by apply elem_of_nil in Hform);
         split; [done|]; do 2 eexists; split_and!; [|reflexivity|done]; in_list).
  unfold path_include in Hx. destruct (strip_prefix _ p); [|discriminate].
  injection Hx as <-.
  repeat (apply elem_of_cons in Hform as [Hform|Hform]; [discriminate|]).
  by apply elem_of_nil in Hform.
Qed.

Lemma resolved_pk_nonneg_witness :
  0 ≤ 12
  ∧ ∃ prefix segment,
      prefix ∈ ["rest/fbv/"; "rest/cbv/"; "rest/mixins/"; "rest/generics/"]
      ∧ "rest/fbv/12" = prefix +:+ segment ∧ IntConverter segment = Some 12.
Proof.
  apply (resolved_pk_nonneg "rest/fbv/12" 12).
  vm_compute. apply list_elem_of_here.
Defined.

(** X18: every natural number has its path.  For [pk] not negative, the path
    of the item [pk], the prefix of the style followed by [pk] in decimal,
    resolves to the handler of that style with the id [pk]: it is not taken
    for the path of the collection nor for a path of the other style. *)
Theorem item_path_resolves (st : style) (pk : Z) :
  0 ≤ pk → resolve (item_path st pk) = Some (to_rest (item st pk)).
Proof.
  intros Hpk. pose proof (digits_str_of_int pk Hpk) as Hd.
  assert (Py.str_of_int pk ≠ "list") as Hlist.
  { intros Heq. rewrite Heq in Hd. discriminate. }
  unfold resolve, urlpatterns_list, item_path.
  destruct st; rewrite !string_app_cons, string_app_nil_l; simpl omap;
    unfold path, path_int, path_include, IntConverter;
    repeat (rewrite decide_False by (intros [= ?]; done));
    simpl; by rewrite Hd.
Qed.

Lemma item_path_resolves_witness :
  resolve (item_path cbv 7) = Some (to_rest (rest_cbv_pk 7)).
Proof. apply (item_path_resolves cbv 7). lia. Defined.
